(** * Stripe MCP gateway ([src/index.js]): a shallow embedding

    The server is an Express application with three routes: [GET /health],
    [GET /] and [POST /mcp].  The embedding follows the source:

    - JavaScript values that travel through the handlers (the parsed JSON
      body, the object literals handed to the Stripe client, the objects
      handed to [res.json]) are terms of [value];
    - JavaScript numbers are IEEE-754 binary64 numbers, taken from the
      standard library's executable specification [spec_float], so that
      [Math.round(x * 100)] is computed bit for bit;
    - the Stripe client is an external collaborator: a function from a call
      and the state of the outside world to an outcome (the promise resolves
      or rejects) and a new state of the world.  Handlers run in a monad
      that threads the world, carries the exception of a [throw] or of a
      rejected [await], and records every call made to the collaborator;
    - [console.log] and friends are not modelled. *)

From Stdlib Require Import ZArith List String Ascii Bool Lia.
From Stdlib Require Import Floats.SpecFloat.
Import ListNotations.

Set Warnings "-register-all".

Local Open Scope string_scope.
Local Open Scope Z_scope.
Local Open Scope list_scope.

(** ** Numbers *)

Definition number : Type := spec_float.

Module Num.

Definition prec : Z := 53.
Definition emax : Z := 1024.

Definition NaN : number := S754_nan.

(** The number denoted by an integer (exact below [2^53]). *)
Definition of_Z (z : Z) : number := binary_normalize prec emax z 0 false.

Definition mul : number -> number -> number := SFmul prec emax.
Definition div : number -> number -> number := SFdiv prec emax.

(** The number a decimal literal [m / 10^k] denotes: the binary64 number
    nearest to it.  Both [m] and [10^k] are exact for [|m| < 2^53] and
    [k <= 22], and IEEE division is correctly rounded, so the quotient is
    that nearest number. *)
Definition decimal (m : Z) (k : nat) : number :=
  div (of_Z m) (of_Z (10 ^ Z.of_nat k)).

(** [Math.round]: NaN, infinities and zeros are returned as they are; a
    number at or above [2^52] in magnitude is an integer already; otherwise
    the result is [floor(x + 1/2)], computed exactly, with the sign of [x]
    kept when the result is zero. *)
Definition round (x : number) : number :=
  match x with
  | S754_finite s m e =>
      if 0 <=? e then x
      else
        let k := - e in
        let n := (2 * cond_Zopp s (Zpos m) + 2 ^ k) / 2 ^ (k + 1) in
        if n =? 0 then S754_zero s else of_Z n
  | _ => x
  end.

(** The integer a number is, when it is one. *)
Definition to_Z (x : number) : option Z :=
  match x with
  | S754_zero _ => Some 0
  | S754_finite s m e =>
      if 0 <=? e then Some (cond_Zopp s (Zpos m) * 2 ^ e)
      else if Zpos m mod 2 ^ (- e) =? 0
           then Some (cond_Zopp s (Zpos m / 2 ^ (- e)))
           else None
  | _ => None
  end.

(** [x] is a normal binary64 number within half a unit in the last place of
    the decimal [m / 10^k]: for [x = mx * 2^e] with [e < 0], the inequality
    [|mx * 2^e - m / 10^k| <= 2^e / 2] multiplied by [2 * 2^(-e) * 10^k]. *)
Definition nearest_decimal (x : number) (m : Z) (k : nat) : bool :=
  match x with
  | S754_finite s mx e =>
      (Zpos (digits2_pos mx) =? prec)
      && (e <? 0)
      && (2 * Z.abs (cond_Zopp s (Zpos mx) * 10 ^ Z.of_nat k - m * 2 ^ (- e))
          <=? 10 ^ Z.of_nat k)
  | _ => false
  end.

End Num.

(** ** Values *)

Inductive value : Type :=
| VUndefined
| VNull
| VBool (b : bool)
| VNum (n : number)
| VStr (s : string)
| VArr (elems : list value)
| VObj (fields : list (string * value)).

(** What a handler reads off a thrown value: [error.message] and
    [error.type]. *)
Record exn : Type := { message : value; type : value }.

(** The runtime raises a [TypeError] at four places of the handler, each
    time about an offending value; the text of its message is the engine's
    and may depend on the place and on that value. *)
Inductive type_error : Type :=
| NullishDestructure (v : value)
| NullishProperty (name : string) (v : value)
| NotIterable (v : value)
| NoPrimitive (v : value).

(** What the handlers use of the engine without the source fixing it: the
    wording of a [TypeError], [StringToNumber], and [Number::toString]. *)
Class Runtime : Type :=
  { describe : type_error -> string;
    StringToNumber : string -> number;
    NumberToString : number -> string }.

Module Js.
Section Operations.

Context {rt : Runtime}.

Definition TypeError (t : type_error) : exn :=
  {| message := VStr (describe t); type := VUndefined |}.

Fixpoint lookup (name : string) (fields : list (string * value)) : option value :=
  match fields with
  | [] => None
  | (k, v) :: rest => if String.eqb k name then Some v else lookup name rest
  end.

(** [v.name] for the property names the handlers read (none of them is
    defined on a prototype). *)
Definition prop (v : value) (name : string) : exn + value :=
  match v with
  | VUndefined | VNull => inl (TypeError (NullishProperty name v))
  | VObj fields =>
      match lookup name fields with
      | Some x => inr x
      | None => inr VUndefined
      end
  | _ => inr VUndefined
  end.

(** [const { method, params } = v]. *)
Definition destructure (v : value) : exn + value * value :=
  match v with
  | VUndefined | VNull => inl (TypeError (NullishDestructure v))
  | VObj fields =>
      inr (match lookup "method" fields with Some x => x | None => VUndefined end,
           match lookup "params" fields with Some x => x | None => VUndefined end)
  | _ => inr (VUndefined, VUndefined)
  end.

Definition ToBoolean (v : value) : bool :=
  match v with
  | VUndefined | VNull => false
  | VBool b => b
  | VNum (S754_zero _) | VNum S754_nan => false
  | VNum _ => true
  | VStr s => negb (String.eqb s "")
  | VArr _ | VObj _ => true
  end.

(** [a || b]. *)
Definition or (a b : value) : value := if ToBoolean a then a else b.

(** [ToString] of a parsed JSON value.  A plain object converts through
    [Object.prototype]'s [toString], unless an own [toString] property
    (never callable in parsed JSON) hides it: then no method gives a
    primitive and the conversion throws.  An array converts through
    [Array.prototype.join]: its elements converted from left to right,
    [null] and [undefined] to the empty string, with commas between. *)
Fixpoint ToString (v : value) : exn + string :=
  match v with
  | VUndefined => inr "undefined"
  | VNull => inr "null"
  | VBool b => inr (if b then "true" else "false")
  | VNum n => inr (NumberToString n)
  | VStr s => inr s
  | VArr elems =>
      (fix join (l : list value) : exn + string :=
         match l with
         | [] => inr ""
         | x :: rest =>
             match (match x with
                    | VUndefined | VNull => inr ""
                    | _ => ToString x
                    end) with
             | inl e => inl e
             | inr s =>
                 match rest with
                 | [] => inr s
                 | _ :: _ =>
                     match join rest with
                     | inl e => inl e
                     | inr r => inr (String.append s (String.append "," r))
                     end
                 end
             end
         end) elems
  | VObj fields =>
      match lookup "toString" fields with
      | Some _ => inl (TypeError (NoPrimitive v))
      | None => inr "[object Object]"
      end
  end.

(** [ToNumber].  An array or an object is first converted to a primitive,
    which for parsed JSON is its [ToString] (the inherited [valueOf] returns
    the object itself): a plain object gives NaN, unless an own [toString]
    property makes the conversion throw. *)
Definition ToNumber (v : value) : exn + number :=
  match v with
  | VUndefined => inr Num.NaN
  | VNull => inr (Num.of_Z 0)
  | VBool b => inr (Num.of_Z (if b then 1 else 0))
  | VNum n => inr n
  | VStr s => inr (StringToNumber s)
  | VArr _ =>
      match ToString v with
      | inl e => inl e
      | inr s => inr (StringToNumber s)
      end
  | VObj fields =>
      match lookup "toString" fields with
      | Some _ => inl (TypeError (NoPrimitive v))
      | None => inr Num.NaN
      end
  end.

(** A byte [10xxxxxx], which continues a code point in UTF-8. *)
Definition is_continuation (c : ascii) : bool :=
  match c with
  | Ascii _ _ _ _ _ _ b6 b7 => b7 && negb b6
  end.

(** The code points of a string, which is held in UTF-8: a byte and the
    continuation bytes that follow it. *)
Fixpoint code_points (s : string) : list string :=
  match s with
  | EmptyString => []
  | String c rest =>
      match rest with
      | String d _ =>
          if is_continuation d then
            match code_points rest with
            | p :: ps => String c p :: ps
            | [] => [String c EmptyString]
            end
          else String c EmptyString :: code_points rest
      | EmptyString => [String c EmptyString]
      end
  end.

(** Each code point of a string as a string of its own. *)
Definition chars (s : string) : list value := map VStr (code_points s).

(** The sequence [for (const item of v)] runs over. *)
Definition iterate (v : value) : exn + list value :=
  match v with
  | VArr elems => inr elems
  | VStr s => inr (chars s)
  | _ => inl (TypeError (NotIterable v))
  end.

(** [method === name], the comparison of a [switch] on string cases. *)
Definition is_str (v : value) (name : string) : bool :=
  match v with
  | VStr s => String.eqb s name
  | _ => false
  end.

End Operations.
End Js.

(** ** The collaborator *)

(** The five operations of the Stripe client the handler uses, each with the
    argument it is given. *)
Inductive call : Type :=
| CustomersCreate (arg : value)
| InvoiceItemsCreate (arg : value)
| InvoicesCreate (arg : value)
| PaymentIntentsCreate (arg : value)
| CustomersRetrieve (id : value).

(** How the promise of a call settles. *)
Inductive outcome : Type :=
| Resolved (v : value)
| Rejected (e : exn).

Record event : Type := { ev_call : call; ev_outcome : outcome }.

Record response : Type := { status : Z; body : value }.

Definition is_item_call (c : call) : bool :=
  match c with InvoiceItemsCreate _ => true | _ => false end.

Definition is_invoice_call (c : call) : bool :=
  match c with InvoicesCreate _ => true | _ => false end.

Definition is_resolved (o : outcome) : bool :=
  match o with Resolved _ => true | Rejected _ => false end.

(** The argument object of a call that is given one. *)
Definition call_arg (c : call) : value :=
  match c with
  | CustomersCreate arg | InvoiceItemsCreate arg | InvoicesCreate arg
  | PaymentIntentsCreate arg | CustomersRetrieve arg => arg
  end.

(** A field of an object literal. *)
Definition field (name : string) (v : value) : option value :=
  match v with
  | VObj fields => Js.lookup name fields
  | _ => None
  end.

(** ** The handlers *)

Section Gateway.

(** The state of everything outside the process that the collaborator's
    answers may depend on and that its operations may change. *)
Context {World : Type} {rt : Runtime}.

(** A constructed Stripe client: [perform c w] is how the call [c] settles
    when issued in world [w], and the world it leaves. *)
Record StripeClient : Type := { perform : call -> World -> outcome * World }.

(** Computations of a handler: from the world to a result or a thrown
    exception, the world left, and the calls issued, oldest first. *)
Definition M (A : Type) : Type := World -> (exn + A) * World * list event.

Definition ret {A : Type} (a : A) : M A := fun w => (inr a, w, []).

Definition throw {A : Type} (e : exn) : M A := fun w => (inl e, w, []).

Definition bind {A B : Type} (m : M A) (k : A -> M B) : M B :=
  fun w =>
    match m w with
    | (inl e, w1, t1) => (inl e, w1, t1)
    | (inr a, w1, t1) =>
        match k a w1 with
        | (r, w2, t2) => (r, w2, t1 ++ t2)
        end
    end.

(** A step of the runtime that may throw. *)
Definition lift {A : Type} (r : exn + A) : M A :=
  match r with
  | inl e => throw e
  | inr a => ret a
  end.

(** [await stripe.<operation>(arg)]. *)
Definition await (stripe : StripeClient) (c : call) : M value :=
  fun w =>
    match perform stripe c w with
    | (Resolved v, w1) => (inr v, w1, [{| ev_call := c; ev_outcome := Resolved v |}])
    | (Rejected e, w1) => (inl e, w1, [{| ev_call := c; ev_outcome := Rejected e |}])
    end.

Notation "x <- m ;; k" := (bind m (fun x => k))
  (at level 100, m at next level, right associativity).

Definition str (s : string) : value := VStr s.
Definition num (z : Z) : value := VNum (Num.of_Z z).

(** [Math.round(v * 100)]. *)
Definition cents (v : value) : M value :=
  n <- lift (Js.ToNumber v) ;;
  ret (VNum (Num.round (Num.mul n (Num.of_Z 100)))).

(** The argument of [stripe.invoiceItems.create] for one item. *)
Definition invoice_item (params item : value) : M value :=
  customer <- lift (Js.prop params "customer_id") ;;
  amount <- lift (Js.prop item "amount") ;;
  amount <- cents amount ;;
  currency <- lift (Js.prop params "currency") ;;
  description <- lift (Js.prop item "description") ;;
  ret (VObj [("customer", customer);
             ("amount", amount);
             ("currency", Js.or currency (str "usd"));
             ("description", description)]).

(** The body of [for (const item of ...)] over the items left. *)
Fixpoint create_items (stripe : StripeClient) (params : value) (items : list value)
  : M unit :=
  match items with
  | [] => ret tt
  | item :: rest =>
      arg <- invoice_item params item ;;
      _ <- await stripe (InvoiceItemsCreate arg) ;;
      create_items stripe params rest
  end.

Definition methods : list string :=
  ["create_customer"; "create_invoice"; "process_payment"; "retrieve_customer"].

Definition ok (name : string) (v : value) : response :=
  {| status := 200; body := VObj [("success", VBool true); (name, v)] |}.

Definition create_customer (stripe : StripeClient) (params : value) : M response :=
  email <- lift (Js.prop params "email") ;;
  description <- lift (Js.prop params "description") ;;
  customer <- await stripe
    (CustomersCreate (VObj [("email", email);
                            ("description", Js.or description (str "Created via MCP"))])) ;;
  ret (ok "customer" customer).

Definition create_invoice (stripe : StripeClient) (params : value) : M response :=
  items <- lift (Js.prop params "items") ;;
  items <- lift (Js.iterate (Js.or items (VArr []))) ;;
  _ <- create_items stripe params items ;;
  customer <- lift (Js.prop params "customer_id") ;;
  invoice <- await stripe
    (InvoicesCreate (VObj [("customer", customer);
                           ("collection_method", str "send_invoice");
                           ("days_until_due", num 30)])) ;;
  ret (ok "invoice" invoice).

Definition process_payment (stripe : StripeClient) (params : value) : M response :=
  amount <- lift (Js.prop params "amount") ;;
  amount <- cents amount ;;
  currency <- lift (Js.prop params "currency") ;;
  payment_method <- lift (Js.prop params "payment_method") ;;
  customer <- lift (Js.prop params "customer_id") ;;
  paymentIntent <- await stripe
    (PaymentIntentsCreate (VObj [("amount", amount);
                                 ("currency", Js.or currency (str "usd"));
                                 ("payment_method", payment_method);
                                 ("customer", customer);
                                 ("confirmation_method", str "manual");
                                 ("confirm", VBool true);
                                 ("return_url", str "https://your-website.com/return")])) ;;
  ret (ok "paymentIntent" paymentIntent).

Definition retrieve_customer (stripe : StripeClient) (params : value) : M response :=
  id <- lift (Js.prop params "customer_id") ;;
  retrievedCustomer <- await stripe (CustomersRetrieve id) ;;
  ret (ok "customer" retrievedCustomer).

Definition unknown_method : response :=
  {| status := 400;
     body := VObj [("error", str "Unknown method");
                   ("available_methods", VArr (map str methods))] |}.

(** The [try] block of [POST /mcp]. *)
Definition dispatch (stripe : StripeClient) (req_body : value) : M response :=
  mp <- lift (Js.destructure req_body) ;;
  let (method, params) := mp in
  if Js.is_str method "create_customer" then create_customer stripe params
  else if Js.is_str method "create_invoice" then create_invoice stripe params
  else if Js.is_str method "process_payment" then process_payment stripe params
  else if Js.is_str method "retrieve_customer" then retrieve_customer stripe params
  else ret unknown_method.

Definition not_configured : response :=
  {| status := 500;
     body := VObj [("error",
       str "Stripe not configured - STRIPE_SECRET_KEY environment variable is required")] |}.

(** The [catch] block of [POST /mcp]. *)
Definition api_error (error : exn) : response :=
  {| status := 500;
     body := VObj [("error", message error);
                   ("type", Js.or (type error) (str "api_error"))] |}.

(** [POST /mcp]: the response, the world left and the calls issued. *)
Definition post_mcp (stripe : option StripeClient) (req_body : value) (w : World)
  : response * World * list event :=
  match stripe with
  | None => (not_configured, w, [])
  | Some client =>
      match dispatch client req_body w with
      | (inr res, w1, t) => (res, w1, t)
      | (inl error, w1, t) => (api_error error, w1, t)
      end
  end.

(** A computation stops at its first rejected call: that call is the last
    one issued, and its exception is what the computation throws. *)
Definition stops_at_rejection {A : Type} (m : M A) : Prop :=
  forall w r w1 t, m w = (r, w1, t) ->
  forall i c e,
    nth_error t i = Some {| ev_call := c; ev_outcome := Rejected e |} ->
    r = inl e /\ List.length t = S i.

(** Every call a computation issues satisfies [P]. *)
Definition issues_only {A : Type} (P : call -> Prop) (m : M A) : Prop :=
  forall w r w1 t, m w = (r, w1, t) -> Forall (fun ev => P (ev_call ev)) t.

(** ** Start-up and the two [GET] routes *)

(** [process.env], as far as the program reads it. *)
Record environment : Type :=
  { NODE_ENV : option string;
    PORT : option string;
    STRIPE_SECRET_KEY : option string }.

Definition env_value (x : option string) : value :=
  match x with
  | Some s => VStr s
  | None => VUndefined
  end.

(** [require('stripe')(key)]: loading the module or constructing the client
    may throw. *)
Variable require_stripe : string -> exn + StripeClient.

(** The two module-level variables. *)
Record globals : Type := { stripe : option StripeClient; stripeError : value }.

(** The [try] / [catch] around the construction of the client. *)
Definition initialize (env : environment) : globals :=
  if Js.ToBoolean (env_value (STRIPE_SECRET_KEY env)) then
    match STRIPE_SECRET_KEY env with
    | Some key =>
        match require_stripe key with
        | inr client => {| stripe := Some client; stripeError := VNull |}
        | inl error => {| stripe := None; stripeError := message error |}
        end
    | None => {| stripe := None; stripeError := VNull |}
    end
  else {| stripe := None; stripeError := VNull |}.

(** What [GET /health] reads off the clock and the process. *)
Record snapshot : Type :=
  { timestamp : string; uptime : number; memoryUsage : value }.

Definition get_health (env : environment) (now : snapshot) : response :=
  {| status := 200;
     body := VObj [("status", str "healthy");
                   ("timestamp", str (timestamp now));
                   ("uptime", VNum (uptime now));
                   ("memory", memoryUsage now);
                   ("env", VObj [("nodeEnv", env_value (NODE_ENV env));
                                 ("port", env_value (PORT env));
                                 ("stripeConfigured",
                                  VBool (Js.ToBoolean (env_value (STRIPE_SECRET_KEY env))))])] |}.

Definition get_root (g : globals) : response :=
  {| status := 200;
     body := VObj [("name", str "Stripe MCP Server");
                   ("version", str "1.0.0");
                   ("description",
                    str "Model Context Protocol server for Stripe API integration");
                   ("tools", VArr (map str methods));
                   ("status",
                    match stripe g with
                    | Some _ => str "ready"
                    | None => str "stripe_not_configured"
                    end)] |}.

(** ** The server *)

Inductive request : Type :=
| GetHealth (now : snapshot)
| GetRoot
| PostMcp (req_body : value).

Definition handle (env : environment) (g : globals) (r : request) (w : World)
  : response * World * list event :=
  match r with
  | GetHealth now => (get_health env now, w, [])
  | GetRoot => (get_root g, w, [])
  | PostMcp req_body => post_mcp (stripe g) req_body w
  end.

(** The responses to a sequence of requests served one after the other by
    the process started in environment [env].  The module-level variables
    are assigned once, before the first request, and no handler writes
    them. *)
Fixpoint serve (env : environment) (g : globals) (rs : list request) (w : World)
  : list response * World :=
  match rs with
  | [] => ([], w)
  | r :: rest =>
      match handle env g r w with
      | (res, w1, _) =>
          match serve env g rest w1 with
          | (ress, w2) => (res :: ress, w2)
          end
      end
  end.

Definition run (env : environment) (rs : list request) (w : World)
  : list response * World :=
  serve env (initialize env) rs w.

End Gateway.

Arguments StripeClient : clear implicits.
Arguments M : clear implicits.
Arguments globals : clear implicits.


(** A request body [{ method, params }]. *)
Definition rpc (method : string) (params : value) : value :=
  VObj [("method", VStr method); ("params", params)].

Definition trace {World : Type} (r : response * World * list event) : list event :=
  snd r.

Definition reply {World : Type} (r : response * World * list event) : response :=
  fst (fst r).

(** An entry [{ amount, description }] of [params.items]. *)
Definition item_object (amount : number) (description : string) : value :=
  VObj [("amount", VNum amount); ("description", VStr description)].

(** A call that carries a currency carries [cur]. *)
Definition has_currency (cur : value) (c : call) : Prop :=
  match c with
  | InvoiceItemsCreate arg | PaymentIntentsCreate arg => field "currency" arg = Some cur
  | _ => True
  end.

(** The [env.stripeConfigured] field of a [GET /health] response. *)
Definition stripeConfigured (r : response) : option value :=
  match field "env" (body r) with
  | Some e => field "stripeConfigured" e
  | None => None
  end.

(** ** Concrete collaborators, for examples *)

Module Demo.

Definition runtime : Runtime :=
  {| describe := fun _ => "TypeError";
     StringToNumber := fun _ => Num.NaN;
     NumberToString := fun _ => "0" |}.

Definition record : value := VObj [("id", VStr "obj_1")].

Definition declined : exn :=
  {| message := VStr "Your card was declined."; type := VStr "StripeCardError" |}.

(** The world is the number of calls served so far; every call resolves. *)
Definition accepting : StripeClient nat :=
  {| perform := fun _ n => (Resolved record, S n) |}.

(** As [accepting], except that the call numbered [k] is rejected. *)
Definition rejecting (k : nat) : StripeClient nat :=
  {| perform := fun _ n =>
       if Nat.eqb n k then (Rejected declined, S n) else (Resolved record, S n) |}.

Definition module_missing : string -> exn + StripeClient nat :=
  fun _ => inl {| message := VStr "Cannot find module 'stripe'"; type := VUndefined |}.

Definition module_present : string -> exn + StripeClient nat :=
  fun _ => inr accepting.

Definition env_with (key : option string) : environment :=
  {| NODE_ENV := Some "production"; PORT := Some "8080"; STRIPE_SECRET_KEY := key |}.

Definition now : snapshot :=
  {| timestamp := "2025-01-01T00:00:00.000Z";
     uptime := Num.of_Z 12;
     memoryUsage := VObj [("rss", VNum (Num.of_Z 50000000))] |}.

Definition two_items : value :=
  VArr [item_object (Num.decimal 1999 2) "A"; item_object (Num.decimal 5005 3) "B"].

Definition three_items : value :=
  VArr [item_object (Num.decimal 1999 2) "A"; item_object (Num.decimal 5005 3) "B";
        item_object (Num.of_Z 1) "C"].

End Demo.

(** ** Accounting over a run, and shapes of requests *)

Definition number_eqb (x y : number) : bool :=
  match x, y with
  | S754_zero a, S754_zero b => Bool.eqb a b
  | S754_infinity a, S754_infinity b => Bool.eqb a b
  | S754_nan, S754_nan => true
  | S754_finite a m e, S754_finite b m' e' =>
      Bool.eqb a b && Pos.eqb m m' && Z.eqb e e'
  | _, _ => false
  end.

(** [Math.round(x * 100)] for the number the decimal [c / 100] denotes. *)
Definition cents_of_hundredths (c : Z) : number :=
  Num.round (Num.mul (Num.decimal c 2) (Num.of_Z 100)).

(** For every [c] below [n]: [cents_of_hundredths c] is [c], and the number
    taken for [c / 100] is within half a unit in the last place of it. *)
Fixpoint cents_exact_below (n : nat) : bool :=
  match n with
  | O => true
  | S k =>
      let c := Z.of_nat k in
      let x := Num.decimal c 2 in
      number_eqb (Num.round (Num.mul x (Num.of_Z 100))) (Num.of_Z c)
      && ((c =? 0) || Num.nearest_decimal x c 2)
      && cents_exact_below k
  end.

Definition is_get (r : request) : bool :=
  match r with
  | GetHealth _ | GetRoot => true
  | PostMcp _ => false
  end.

Definition is_nullish (v : value) : bool :=
  match v with
  | VUndefined | VNull => true
  | _ => false
  end.

(** The items [{ amount, description }] of a list of amounts and
    descriptions. *)
Definition item_objects (l : list (number * string)) : list value :=
  map (fun ad => item_object (fst ad) (snd ad)) l.

(** The argument [create_invoice] builds for [{ amount, description }]. *)
Definition line_item (customer currency : value) (ad : number * string) : call :=
  InvoiceItemsCreate
    (VObj [("customer", customer);
           ("amount", VNum (Num.round (Num.mul (fst ad) (Num.of_Z 100))));
           ("currency", Js.or currency (VStr "usd"));
           ("description", VStr (snd ad))]).

(** The argument of [stripe.invoices.create]. *)
Definition invoice_for (customer : value) : call :=
  InvoicesCreate (VObj [("customer", customer);
                        ("collection_method", VStr "send_invoice");
                        ("days_until_due", VNum (Num.of_Z 30))]).

(** The body of the [catch] block's answer to a [TypeError]. *)
Definition type_error_body {rt : Runtime} (t : type_error) : value :=
  VObj [("error", VStr (describe t)); ("type", VStr "api_error")].

Section Accounting.

Context {World : Type} {rt : Runtime}.

(** All the calls issued while a sequence of requests is served. *)
Fixpoint calls_served (env : environment) (g : globals World) (rs : list request)
    (w : World) : list event :=
  match rs with
  | [] => []
  | r :: rest =>
      match handle env g r w with
      | (_, w1, t) => t ++ calls_served env g rest w1
      end
  end.

(** A computation that returns a response returns the success envelope of
    the value its last call resolved to. *)
Definition wraps_last (m : M World response) : Prop :=
  forall w res w1 t, m w = (inr res, w1, t) ->
  exists key c v t0,
    t = t0 ++ [{| ev_call := c; ev_outcome := Resolved v |}] /\
    res = ok key v /\
    In key ["customer"; "invoice"; "paymentIntent"].

End Accounting.

(** ** Facts about the monad *)

Section MonadFacts.

Context {World : Type}.

Lemma bind_ret {A B : Type} (a : A) (k : A -> M World B) (w : World) :
  bind (ret a) k w = k a w.
Proof.
  unfold bind, ret. destruct (k a w) as [[r w2] t2]. reflexivity.
Qed.

Lemma bind_throw {A B : Type} (e : exn) (k : A -> M World B) (w : World) :
  bind (throw e) k w = (inl e, w, []).
Proof. reflexivity. Qed.

Lemma bind_lift_inr {A B : Type} (a : A) (k : A -> M World B) (w : World) :
  bind (lift (inr a)) k w = k a w.
Proof. apply bind_ret. Qed.

Lemma bind_lift_inl {A B : Type} (e : exn) (k : A -> M World B) (w : World) :
  bind (lift (inl e)) k w = (inl e, w, []).
Proof. reflexivity. Qed.

Lemma bind_silent {A B : Type} (m : M World A) (k : A -> M World B) (w : World)
    (a : A) :
  m w = (inr a, w, []) -> bind m k w = k a w.
Proof.
  intros H. unfold bind. rewrite H. destruct (k a w) as [[r w2] t2]. reflexivity.
Qed.

Lemma bind_await (client : StripeClient World) (c : call) {B : Type}
    (k : value -> M World B) (w : World) :
  bind (await client c) k w =
  match perform client c w with
  | (Resolved v, w1) =>
      match k v w1 with
      | (r, w2, t) => (r, w2, {| ev_call := c; ev_outcome := Resolved v |} :: t)
      end
  | (Rejected e, w1) => (inl e, w1, [{| ev_call := c; ev_outcome := Rejected e |}])
  end.
Proof.
  unfold bind, await. destruct (perform client c w) as [[v | e] w1]; reflexivity.
Qed.

Lemma stops_ret {A : Type} (a : A) : stops_at_rejection (ret (World := World) a).
Proof.
  intros w r w1 t H i c e Hi. inversion H; subst.
  destruct i; discriminate.
Qed.

Lemma stops_lift {A : Type} (x : exn + A) : stops_at_rejection (lift (World := World) x).
Proof.
  intros w r w1 t H i c e Hi. destruct x; inversion H; subst; destruct i; discriminate.
Qed.

Lemma stops_await (client : StripeClient World) (c : call) :
  stops_at_rejection (await client c).
Proof.
  intros w r w1 t H i c' e Hi. unfold await in H.
  destruct (perform client c w) as [[v | e0] w2]; inversion H; subst;
    destruct i as [| [| i]]; simpl in Hi; try discriminate.
  inversion Hi; subst. split; reflexivity.
Qed.

Lemma stops_bind {A B : Type} (m : M World A) (k : A -> M World B) :
  stops_at_rejection m -> (forall a, stops_at_rejection (k a)) ->
  stops_at_rejection (bind m k).
Proof.
  intros Hm Hk w r w2 t H i c e Hi. unfold bind in H.
  destruct (m w) as [[[e0 | a] w1] t1] eqn:Em.
  - inversion H; subst.
    destruct (Hm _ _ _ _ Em _ _ _ Hi) as [He Hlen].
    inversion He; subst. split; [reflexivity | exact Hlen].
  - destruct (k a w1) as [[r2 w3] t2] eqn:Ek. inversion H; subst.
    destruct (Nat.ltb_spec i (List.length t1)) as [Hlt | Hge].
    + rewrite nth_error_app1 in Hi by exact Hlt.
      destruct (Hm _ _ _ _ Em _ _ _ Hi) as [Habs _]. discriminate.
    + rewrite nth_error_app2 in Hi by exact Hge.
      destruct (Hk a _ _ _ _ Ek _ _ _ Hi) as [Hr Hlen].
      split; [exact Hr |]. rewrite length_app, Hlen. lia.
Qed.

Lemma only_ret {A : Type} (P : call -> Prop) (a : A) :
  issues_only P (ret (World := World) a).
Proof. intros w r w1 t H. inversion H; subst. constructor. Qed.

Lemma only_lift {A : Type} (P : call -> Prop) (x : exn + A) :
  issues_only P (lift (World := World) x).
Proof. intros w r w1 t H. destruct x; inversion H; subst; constructor. Qed.

Lemma only_await (P : call -> Prop) (client : StripeClient World) (c : call) :
  P c -> issues_only P (await client c).
Proof.
  intros Hc w r w1 t H. unfold await in H.
  destruct (perform client c w) as [[v | e0] w2]; inversion H; subst;
    repeat constructor; exact Hc.
Qed.

Lemma only_bind {A B : Type} (P : call -> Prop) (m : M World A) (k : A -> M World B) :
  issues_only P m -> (forall a, issues_only P (k a)) -> issues_only P (bind m k).
Proof.
  intros Hm Hk w r w2 t H. unfold bind in H.
  destruct (m w) as [[[e0 | a] w1] t1] eqn:Em.
  - inversion H; subst. exact (Hm _ _ _ _ Em).
  - destruct (k a w1) as [[r2 w3] t2] eqn:Ek. inversion H; subst.
    apply Forall_app. split; [exact (Hm _ _ _ _ Em) | exact (Hk a _ _ _ _ Ek)].
Qed.

Lemma only_bind_lift {A B : Type} (P : call -> Prop) (x : exn + A)
    (k : A -> M World B) :
  (forall a, x = inr a -> issues_only P (k a)) -> issues_only P (bind (lift x) k).
Proof.
  intros Hk w r w2 t H. destruct x as [e | a].
  - rewrite bind_lift_inl in H. inversion H; subst. constructor.
  - rewrite bind_lift_inr in H. exact (Hk a eq_refl _ _ _ _ H).
Qed.

Lemma only_weaken {A : Type} (P Q : call -> Prop) (m : M World A) :
  (forall c, P c -> Q c) -> issues_only P m -> issues_only Q m.
Proof.
  intros HPQ Hm w r w1 t H. eapply Forall_impl; [| exact (Hm _ _ _ _ H)].
  intros ev. apply HPQ.
Qed.

End MonadFacts.

Create HintDb gateway.

#[export] Hint Resolve stops_ret stops_lift stops_await stops_bind : gateway.
#[export] Hint Resolve only_ret only_lift only_await only_bind : gateway.

(** ** Numbers of the examples *)

Lemma cents_19_99 :
  Num.round (Num.mul (Num.decimal 1999 2) (Num.of_Z 100)) = Num.of_Z 1999.
Proof. vm_compute. reflexivity. Qed.

Lemma cents_5_005 :
  Num.round (Num.mul (Num.decimal 5005 3) (Num.of_Z 100)) = Num.of_Z 501.
Proof. vm_compute. reflexivity. Qed.

Lemma cents_10_004 :
  Num.round (Num.mul (Num.decimal 10004 3) (Num.of_Z 100)) = Num.of_Z 1000.
Proof. vm_compute. reflexivity. Qed.

(** [5.005 * 100] is [500.5] in binary64, although the number [5.005]
    denotes lies below the decimal: the product is rounded up to the tie. *)
Lemma product_5_005 :
  Num.mul (Num.decimal 5005 3) (Num.of_Z 100) = Num.div (Num.of_Z 1001) (Num.of_Z 2).
Proof. vm_compute. reflexivity. Qed.

(** ** The routes *)

Section RouteFacts.

Context {World : Type} {rt : Runtime}.

Lemma serve_length (env : environment) (g : globals World) (rs : list request) :
  forall w, List.length (fst (serve env g rs w)) = List.length rs.
Proof.
  induction rs as [| r rest IH]; intros w; simpl.
  - reflexivity.
  - destruct (handle env g r w) as [[res w1] t].
    specialize (IH w1). destruct (serve env g rest w1) as [ress w2].
    simpl in *. now rewrite IH.
Qed.

Lemma serve_app (env : environment) (g : globals World) (rs1 rs2 : list request) :
  forall w,
    serve env g (rs1 ++ rs2) w =
    (fst (serve env g rs1 w) ++ fst (serve env g rs2 (snd (serve env g rs1 w))),
     snd (serve env g rs2 (snd (serve env g rs1 w)))).
Proof.
  induction rs1 as [| r rest IH]; intros w; simpl.
  - destruct (serve env g rs2 w); reflexivity.
  - destruct (handle env g r w) as [[res w1] t].
    rewrite IH. destruct (serve env g rest w1) as [ress w2]. reflexivity.
Qed.

(** C1 (as amended): when the client is absent, [POST /mcp] answers at once
    with HTTP 500 and the body
    [{ error: 'Stripe not configured - STRIPE_SECRET_KEY environment variable
    is required' }], which has no [type] field; the answer is the same for
    every request body, so neither the method name nor anything else of the
    body is looked at, no call is issued to the collaborator and the world
    is left as it was. *)
Theorem unconfigured_fails_closed (req_body : value) (w : World) :
  post_mcp None req_body w =
  ({| status := 500;
      body := VObj [("error", VStr
        "Stripe not configured - STRIPE_SECRET_KEY environment variable is required")] |},
   w, []).
Proof. reflexivity. Qed.

(** C4: with the client present, a request whose method is none of the four
    recognized names is answered with HTTP 400 and a body that lists exactly
    the four names; no call is issued to the collaborator and the world is
    left as it was. *)
Theorem unknown_method_rejected (client : StripeClient World)
    (req_body method params : value) (w : World) :
  Js.destructure req_body = inr (method, params) ->
  ~ In method (map VStr methods) ->
  post_mcp (Some client) req_body w =
  ({| status := 400;
      body := VObj [("error", VStr "Unknown method");
                    ("available_methods",
                     VArr [VStr "create_customer"; VStr "create_invoice";
                           VStr "process_payment"; VStr "retrieve_customer"])] |},
   w, []).
Proof.
  intros Hd Hm. unfold post_mcp, dispatch. rewrite Hd, bind_lift_inr.
  assert (Hno : forall name, In name methods -> Js.is_str method name = false).
  { intros name Hin. destruct method; try reflexivity. simpl.
    destruct (String.eqb_spec s name) as [-> | Hne]; [| reflexivity].
    exfalso. apply Hm. apply in_map. exact Hin. }
  rewrite !Hno by (simpl; tauto). reflexivity.
Qed.

(** C6: the [status] field of [GET /] is ['ready'] exactly when the client
    was constructed at start-up, that is when [STRIPE_SECRET_KEY] is set and
    not empty and [require('stripe')(key)] returned; in every other case it
    is ['stripe_not_configured']. *)
Theorem root_status_ready_iff (require_stripe : string -> exn + StripeClient World)
    (env : environment) :
  let constructed :=
    exists key client,
      STRIPE_SECRET_KEY env = Some key /\ key <> "" /\ require_stripe key = inr client in
  let st := field "status" (body (get_root (initialize require_stripe env))) in
  (st = Some (VStr "ready") <-> constructed) /\
  (~ constructed -> st = Some (VStr "stripe_not_configured")) /\
  status (get_root (initialize require_stripe env)) = 200.
Proof.
  intros constructed st. subst constructed st. unfold initialize.
  destruct (STRIPE_SECRET_KEY env) as [key |] eqn:Ek; simpl.
  - destruct (String.eqb_spec key "") as [-> | Hne]; simpl.
    + repeat split.
      * discriminate.
      * intros (k & c & Hk & Hn & _). inversion Hk; subst. now elim Hn.
    + destruct (require_stripe key) as [e | c] eqn:Er; simpl.
      * repeat split.
        -- discriminate.
        -- intros (k & c & Hk & _ & Hr). inversion Hk; subst. congruence.
      * repeat split.
        -- intros _. exists key, c. auto.
        -- intros Hn. exfalso. apply Hn. exists key, c. auto.
  - repeat split.
    + discriminate.
    + intros (k & c & Hk & _). discriminate.
Qed.

(** C7 (as amended): whatever requests were served before it, a
    [GET /health] is answered with HTTP 200 and a boolean
    [env.stripeConfigured] that tells whether [STRIPE_SECRET_KEY] is set and
    not empty in the environment; it tells whether the client is present
    whenever constructing the client at start-up did not throw (the
    construction returned, or was not attempted for want of a key). *)
Theorem health_reports_credential (require_stripe : string -> exn + StripeClient World)
    (env : environment) (prior : list request) (now : snapshot) (w : World) :
  let configured :=
    match STRIPE_SECRET_KEY env with
    | Some key => negb (String.eqb key "")
    | None => false
    end in
  exists res,
    nth_error (fst (run require_stripe env (prior ++ [GetHealth now]) w))
              (List.length prior) = Some res /\
    status res = 200 /\
    stripeConfigured res = Some (VBool configured) /\
    ((forall key, STRIPE_SECRET_KEY env = Some key -> key <> "" ->
                  exists client, require_stripe key = inr client) ->
     configured = match stripe (initialize require_stripe env) with
                  | Some _ => true
                  | None => false
                  end).
Proof.
  intros configured. exists (get_health env now). repeat split.
  - unfold run. rewrite serve_app. simpl fst.
    rewrite nth_error_app2 by (rewrite serve_length; lia).
    rewrite serve_length, Nat.sub_diag. reflexivity.
  - subst configured. unfold stripeConfigured. simpl.
    destruct (STRIPE_SECRET_KEY env); reflexivity.
  - intros Hok. subst configured. unfold initialize.
    destruct (STRIPE_SECRET_KEY env) as [key |]; simpl; [| reflexivity].
    destruct (String.eqb_spec key "") as [-> | Hne]; simpl; [reflexivity |].
    destruct (Hok key eq_refl Hne) as [c ->]. reflexivity.
Qed.

End RouteFacts.

(** ** The dispatcher *)

Section DispatchFacts.

Context {World : Type} {rt : Runtime}.

Arguments Num.round : simpl never.
Arguments Num.mul : simpl never.
Arguments Num.of_Z : simpl never.
Arguments Num.decimal : simpl never.

Lemma stops_cents (v : value) : stops_at_rejection (cents (World := World) v).
Proof. unfold cents. auto with gateway. Qed.

Lemma stops_invoice_item (params item : value) :
  stops_at_rejection (invoice_item (World := World) params item).
Proof. unfold invoice_item. auto 10 using stops_cents with gateway. Qed.

Lemma stops_create_items (client : StripeClient World) (params : value)
    (items : list value) :
  stops_at_rejection (create_items client params items).
Proof.
  induction items as [| item rest IH]; simpl.
  - apply stops_ret.
  - auto using stops_invoice_item with gateway.
Qed.

Lemma stops_create_invoice (client : StripeClient World) (params : value) :
  stops_at_rejection (create_invoice client params).
Proof. unfold create_invoice. auto 10 using stops_create_items with gateway. Qed.

Lemma only_cents (P : call -> Prop) (v : value) :
  issues_only P (cents (World := World) v).
Proof. unfold cents. auto with gateway. Qed.

Lemma only_invoice_item (P : call -> Prop) (params item : value) :
  issues_only P (invoice_item (World := World) params item).
Proof. unfold invoice_item. auto 10 using only_cents with gateway. Qed.

(** Building the argument of a call issues no call. *)
Lemma invoice_item_silent (params item : value) (w w1 : World)
    (r : exn + value) (t : list event) :
  invoice_item params item w = (r, w1, t) -> t = [].
Proof.
  intros H. pose proof (only_invoice_item (fun _ => False) params item _ _ _ _ H) as Hf.
  destruct t as [| ev t]; [reflexivity |]. inversion Hf; contradiction.
Qed.

(** The argument built for an item carries the currency of the request, or
    ['usd']. *)
Lemma invoice_item_currency (params item currency : value) (w w1 : World)
    (arg : value) (t : list event) :
  Js.prop params "currency" = inr currency ->
  invoice_item params item w = (inr arg, w1, t) ->
  field "currency" arg = Some (Js.or currency (VStr "usd")).
Proof.
  intros Hc H. unfold invoice_item, cents in H.
  destruct (Js.prop params "customer_id") as [e | customer];
    [rewrite bind_lift_inl in H; discriminate | rewrite bind_lift_inr in H].
  destruct (Js.prop item "amount") as [e | amount];
    [rewrite bind_lift_inl in H; discriminate | rewrite bind_lift_inr in H].
  unfold bind at 1 in H. unfold bind at 1 in H.
  destruct (Js.ToNumber amount) as [e | n]; simpl in H; [discriminate |].
  rewrite Hc in H. simpl in H.
  destruct (Js.prop item "description") as [e | description]; simpl in H;
    [discriminate |].
  inversion H; subst. reflexivity.
Qed.

Lemma only_create_items (client : StripeClient World) (params currency : value)
    (items : list value) :
  Js.prop params "currency" = inr currency ->
  issues_only (fun c => is_item_call c = true /\
                        has_currency (Js.or currency (VStr "usd")) c)
              (create_items client params items).
Proof.
  intros Hc. induction items as [| item rest IH]; simpl.
  - apply only_ret.
  - intros w r w2 t H. unfold bind at 1 in H.
    destruct (invoice_item params item w) as [[[e | arg] w1] t1] eqn:Ei.
    + inversion H; subst.
      rewrite (invoice_item_silent _ _ _ _ _ _ Ei). constructor.
    + destruct (bind (await client (InvoiceItemsCreate arg))
                     (fun _ => create_items client params rest) w1)
        as [[r3 w3] t3] eqn:Eb.
      inversion H; subst.
      rewrite (invoice_item_silent _ _ _ _ _ _ Ei). simpl.
      refine (only_bind _ _ _ _ (fun _ => IH) _ _ _ _ Eb).
      apply only_await. split; [reflexivity |].
      simpl. exact (invoice_item_currency _ _ _ _ _ _ _ Hc Ei).
Qed.

Lemma prop_defined (v : value) (a b : string) (x : value) :
  Js.prop v a = inr x -> exists y, Js.prop v b = inr y.
Proof.
  destruct v; simpl; try discriminate; intros _; eauto.
  destruct (Js.lookup b fields); eauto.
Qed.

Lemma dispatch_create_customer (client : StripeClient World) (req_body params : value)
    (w : World) :
  Js.destructure req_body = inr (VStr "create_customer", params) ->
  dispatch client req_body w = create_customer client params w.
Proof.
  intros Hd. unfold dispatch. rewrite Hd, bind_lift_inr. reflexivity.
Qed.

Lemma dispatch_create_invoice (client : StripeClient World) (req_body params : value)
    (w : World) :
  Js.destructure req_body = inr (VStr "create_invoice", params) ->
  dispatch client req_body w = create_invoice client params w.
Proof.
  intros Hd. unfold dispatch. rewrite Hd, bind_lift_inr. reflexivity.
Qed.

Lemma dispatch_process_payment (client : StripeClient World) (req_body params : value)
    (w : World) :
  Js.destructure req_body = inr (VStr "process_payment", params) ->
  dispatch client req_body w = process_payment client params w.
Proof.
  intros Hd. unfold dispatch. rewrite Hd, bind_lift_inr. reflexivity.
Qed.

Lemma dispatch_retrieve_customer (client : StripeClient World) (req_body params : value)
    (w : World) :
  Js.destructure req_body = inr (VStr "retrieve_customer", params) ->
  dispatch client req_body w = retrieve_customer client params w.
Proof.
  intros Hd. unfold dispatch. rewrite Hd, bind_lift_inr. reflexivity.
Qed.

(** The calls of [create_invoice]: line items first, then at most one
    invoice creation. *)
Lemma create_invoice_calls (client : StripeClient World) (params : value)
    (w w1 : World) (r : exn + response) (t : list event) :
  create_invoice client params w = (r, w1, t) ->
  exists t1 t2,
    t = t1 ++ t2 /\
    Forall (fun ev => is_item_call (ev_call ev) = true) t1 /\
    (t2 = [] \/ exists ev, t2 = [ev] /\ is_invoice_call (ev_call ev) = true).
Proof.
  intros H. unfold create_invoice in H.
  destruct (Js.prop params "items") as [e | items] eqn:Ep;
    [rewrite bind_lift_inl in H; inversion H; subst; exists [], []; auto
    | rewrite bind_lift_inr in H].
  destruct (Js.iterate (Js.or items (VArr []))) as [e | l];
    [rewrite bind_lift_inl in H; inversion H; subst; exists [], []; auto
    | rewrite bind_lift_inr in H].
  destruct (prop_defined _ _ "currency" _ Ep) as [currency Hc].
  destruct (prop_defined _ _ "customer_id" _ Ep) as [customer Hcu].
  unfold bind at 1 in H.
  destruct (create_items client params l w) as [[[e | []] w2] t1] eqn:Ec.
  - inversion H; subst. exists t, []. rewrite app_nil_r. repeat split; auto.
    eapply Forall_impl; [| exact (only_create_items _ _ _ _ Hc _ _ _ _ Ec)].
    simpl. tauto.
  - rewrite Hcu, bind_lift_inr, bind_await in H.
    exists t1. destruct (perform client _ w2) as [[v | e] w3]; simpl in H;
      inversion H; subst; eexists; (split; [reflexivity |]); (split;
        [ eapply Forall_impl; [| exact (only_create_items _ _ _ _ Hc _ _ _ _ Ec)];
          simpl; tauto
        | right; eexists; split; reflexivity ]).
Qed.

Lemma invoice_item_run (params customer currency : value) (amount : number)
    (description : string) (w : World) :
  Js.prop params "customer_id" = inr customer ->
  Js.prop params "currency" = inr currency ->
  invoice_item params (item_object amount description) w =
  (inr (VObj [("customer", customer);
              ("amount", VNum (Num.round (Num.mul amount (Num.of_Z 100))));
              ("currency", Js.or currency (VStr "usd"));
              ("description", VStr description)]), w, []).
Proof.
  intros Hcu Hc. unfold invoice_item, cents.
  rewrite Hcu, bind_lift_inr. simpl Js.prop. rewrite bind_lift_inr.
  simpl Js.ToNumber. rewrite Hc. reflexivity.
Qed.

(** Every call of [create_invoice] that carries a currency carries the one
    of the request, or ['usd']. *)
Lemma only_create_invoice (client : StripeClient World) (params currency : value) :
  Js.prop params "currency" = inr currency ->
  issues_only (has_currency (Js.or currency (VStr "usd")))
              (create_invoice client params).
Proof.
  intros Hc. unfold create_invoice.
  apply only_bind; [apply only_lift | intros items].
  apply only_bind; [apply only_lift | intros l].
  apply only_bind.
  - eapply only_weaken; [| exact (only_create_items client params currency l Hc)].
    simpl. tauto.
  - intros _. apply only_bind; [apply only_lift | intros customer].
    apply only_bind; [| intros; apply only_ret].
    apply only_await. exact I.
Qed.

Lemma only_process_payment (client : StripeClient World) (params currency : value) :
  Js.prop params "currency" = inr currency ->
  issues_only (has_currency (Js.or currency (VStr "usd")))
              (process_payment client params).
Proof.
  intros Hc. unfold process_payment.
  apply only_bind; [apply only_lift | intros amount].
  apply only_bind; [apply only_cents | intros cts].
  apply only_bind_lift. intros cur Hcur. rewrite Hc in Hcur.
  inversion Hcur; subst cur.
  apply only_bind; [apply only_lift | intros payment_method].
  apply only_bind; [apply only_lift | intros customer].
  apply only_bind; [| intros; apply only_ret].
  apply only_await. reflexivity.
Qed.

(** What [create_customer] does once [params] can be read. *)
Lemma post_create_customer (client : StripeClient World)
    (req_body params email description : value) (w : World) :
  Js.destructure req_body = inr (VStr "create_customer", params) ->
  Js.prop params "email" = inr email ->
  Js.prop params "description" = inr description ->
  post_mcp (Some client) req_body w =
  let c := CustomersCreate
             (VObj [("email", email);
                    ("description", Js.or description (VStr "Created via MCP"))]) in
  match perform client c w with
  | (Resolved customer, w1) =>
      (ok "customer" customer, w1, [{| ev_call := c; ev_outcome := Resolved customer |}])
  | (Rejected error, w1) =>
      (api_error error, w1, [{| ev_call := c; ev_outcome := Rejected error |}])
  end.
Proof.
  intros Hd He Hdesc. unfold post_mcp.
  rewrite (dispatch_create_customer _ _ _ _ Hd). unfold create_customer.
  rewrite He, bind_lift_inr, Hdesc, bind_lift_inr, bind_await. cbv zeta.
  destruct (perform client _ w) as [[v | e] w1]; reflexivity.
Qed.

(** What [process_payment] does once its amount is a number. *)
Lemma post_process_payment (client : StripeClient World)
    (req_body params amount currency payment_method customer : value)
    (n : number) (w : World) :
  Js.destructure req_body = inr (VStr "process_payment", params) ->
  Js.prop params "amount" = inr amount ->
  Js.ToNumber amount = inr n ->
  Js.prop params "currency" = inr currency ->
  Js.prop params "payment_method" = inr payment_method ->
  Js.prop params "customer_id" = inr customer ->
  post_mcp (Some client) req_body w =
  let c := PaymentIntentsCreate
             (VObj [("amount", VNum (Num.round (Num.mul n (Num.of_Z 100))));
                    ("currency", Js.or currency (VStr "usd"));
                    ("payment_method", payment_method);
                    ("customer", customer);
                    ("confirmation_method", VStr "manual");
                    ("confirm", VBool true);
                    ("return_url", VStr "https://your-website.com/return")]) in
  match perform client c w with
  | (Resolved paymentIntent, w1) =>
      (ok "paymentIntent" paymentIntent, w1,
       [{| ev_call := c; ev_outcome := Resolved paymentIntent |}])
  | (Rejected error, w1) =>
      (api_error error, w1, [{| ev_call := c; ev_outcome := Rejected error |}])
  end.
Proof.
  intros Hd Ha Hn Hc Hp Hcu. unfold post_mcp.
  rewrite (dispatch_process_payment _ _ _ _ Hd). unfold process_payment, cents.
  rewrite Ha, bind_lift_inr, Hn.
  rewrite (bind_silent _ _ _ (VNum (Num.round (Num.mul n (Num.of_Z 100)))))
    by reflexivity.
  rewrite Hc, bind_lift_inr, Hp, bind_lift_inr, Hcu, bind_lift_inr, bind_await.
  cbv zeta. destruct (perform client _ w) as [[v | e] w1]; reflexivity.
Qed.

(** What [create_invoice] does on a list of two items. *)
Lemma post_create_invoice_two (client : StripeClient World)
    (req_body params customer currency : value) (a1 a2 : number)
    (d1 d2 : string) (w : World) :
  Js.destructure req_body = inr (VStr "create_invoice", params) ->
  Js.prop params "items" = inr (VArr [item_object a1 d1; item_object a2 d2]) ->
  Js.prop params "customer_id" = inr customer ->
  Js.prop params "currency" = inr currency ->
  post_mcp (Some client) req_body w =
  let line a d :=
    InvoiceItemsCreate
      (VObj [("customer", customer);
             ("amount", VNum (Num.round (Num.mul a (Num.of_Z 100))));
             ("currency", Js.or currency (VStr "usd"));
             ("description", VStr d)]) in
  let c3 :=
    InvoicesCreate (VObj [("customer", customer);
                          ("collection_method", VStr "send_invoice");
                          ("days_until_due", VNum (Num.of_Z 30))]) in
  let ev c o := {| ev_call := c; ev_outcome := o |} in
  match perform client (line a1 d1) w with
  | (Rejected e, w1) => (api_error e, w1, [ev (line a1 d1) (Rejected e)])
  | (Resolved v1, w1) =>
      match perform client (line a2 d2) w1 with
      | (Rejected e, w2) =>
          (api_error e, w2,
           [ev (line a1 d1) (Resolved v1); ev (line a2 d2) (Rejected e)])
      | (Resolved v2, w2) =>
          match perform client c3 w2 with
          | (Rejected e, w3) =>
              (api_error e, w3,
               [ev (line a1 d1) (Resolved v1); ev (line a2 d2) (Resolved v2);
                ev c3 (Rejected e)])
          | (Resolved v3, w3) =>
              (ok "invoice" v3, w3,
               [ev (line a1 d1) (Resolved v1); ev (line a2 d2) (Resolved v2);
                ev c3 (Resolved v3)])
          end
      end
  end.
Proof.
  intros Hd Hi Hcu Hc. cbv zeta. unfold post_mcp.
  rewrite (dispatch_create_invoice _ _ _ _ Hd). unfold create_invoice.
  rewrite Hi, bind_lift_inr.
  change (Js.iterate (Js.or (VArr ?l) (VArr []))) with (@inr exn _ l).
  rewrite bind_lift_inr. cbn [create_items].
  unfold bind at 1.
  rewrite (bind_silent _ _ _ _ (invoice_item_run _ _ _ _ _ _ Hcu Hc)).
  rewrite bind_await.
  destruct (perform client _ w) as [[v1 | e1] w1]; [| reflexivity].
  rewrite (bind_silent _ _ _ _ (invoice_item_run _ _ _ _ _ _ Hcu Hc)).
  rewrite bind_await.
  destruct (perform client _ w1) as [[v2 | e2] w2]; [| reflexivity].
  cbn [ret app]. rewrite Hcu, bind_lift_inr, bind_await.
  destruct (perform client _ w2) as [[v3 | e3] w3]; reflexivity.
Qed.

(** C2: in [create_invoice], when the second call issued is the creation of a
    line item and the collaborator rejects it, the request is answered with
    HTTP 500 and the collaborator's message, these two calls are all the
    calls issued (no third line item is attempted), and no invoice is
    created. *)
Theorem second_item_failure_aborts (client : StripeClient World)
    (req_body params arg : value) (error : exn) (w : World) :
  Js.destructure req_body = inr (VStr "create_invoice", params) ->
  nth_error (trace (post_mcp (Some client) req_body w)) 1 =
    Some {| ev_call := InvoiceItemsCreate arg; ev_outcome := Rejected error |} ->
  reply (post_mcp (Some client) req_body w) =
    {| status := 500;
       body := VObj [("error", message error);
                     ("type", Js.or (type error) (VStr "api_error"))] |} /\
  List.length (trace (post_mcp (Some client) req_body w)) = 2%nat /\
  Forall (fun ev => is_invoice_call (ev_call ev) = false)
         (trace (post_mcp (Some client) req_body w)).
Proof.
  intros Hd. unfold trace, reply, post_mcp.
  rewrite (dispatch_create_invoice _ _ _ _ Hd).
  destruct (create_invoice client params w) as [[r w1] t] eqn:E.
  intros Hn.
  assert (Hs : r = inl error /\ List.length t = 2%nat).
  { destruct r; change (nth_error t 1 = Some
      {| ev_call := InvoiceItemsCreate arg; ev_outcome := Rejected error |}) in Hn;
      exact (stops_create_invoice _ _ _ _ _ _ E _ _ _ Hn). }
  destruct Hs as [-> Hlen].
  change (nth_error t 1 = Some
    {| ev_call := InvoiceItemsCreate arg; ev_outcome := Rejected error |}) in Hn.
  cbn [fst snd]. repeat split; [exact Hlen |].
  destruct (create_invoice_calls _ _ _ _ _ _ E) as (t1 & t2 & -> & Hitems & Hlast).
  destruct Hlast as [-> | (ev & -> & Hev)].
  - rewrite app_nil_r. eapply Forall_impl; [| exact Hitems].
    intros ev Hev. cbv beta in Hev. destruct (ev_call ev); simpl in *;
      first [reflexivity | discriminate].
  - rewrite length_app in Hlen. simpl in Hlen.
    rewrite nth_error_app2 in Hn by lia.
    replace (1 - List.length t1)%nat with 0%nat in Hn by lia.
    simpl in Hn. inversion Hn; subst. discriminate.
Qed.

(** C3: for [items = [{amount: 19.99, description: "A"},
    {amount: 5.005, description: "B"}]] the calls issued are, in this order,
    the creation of a line item of 1999 minor units, of a line item of 501
    minor units, and of the invoice: the calls issued are always a non-empty
    prefix of these three, and all three when no line item is rejected.  The
    amounts are [Math.round(amount * 100)] in binary64, where [5.005 * 100]
    is exactly the tie [500.5], rounded up. *)
Theorem invoice_items_in_cents (client : StripeClient World)
    (req_body params customer currency : value) (w : World) :
  Js.destructure req_body = inr (VStr "create_invoice", params) ->
  Js.prop params "items" =
    inr (VArr [item_object (Num.decimal 1999 2) "A";
               item_object (Num.decimal 5005 3) "B"]) ->
  Js.prop params "customer_id" = inr customer ->
  Js.prop params "currency" = inr currency ->
  let t := trace (post_mcp (Some client) req_body w) in
  let line amount description :=
    InvoiceItemsCreate
      (VObj [("customer", customer);
             ("amount", VNum (Num.of_Z amount));
             ("currency", Js.or currency (VStr "usd"));
             ("description", VStr description)]) in
  let expected :=
    [line 1999 "A"; line 501 "B";
     InvoicesCreate (VObj [("customer", customer);
                           ("collection_method", VStr "send_invoice");
                           ("days_until_due", VNum (Num.of_Z 30))])] in
  (1 <= List.length t <= 3)%nat /\
  map ev_call t = firstn (List.length t) expected /\
  (Forall (fun ev => is_item_call (ev_call ev) = true ->
                     is_resolved (ev_outcome ev) = true) t ->
   List.length t = 3%nat) /\
  Num.nearest_decimal (Num.decimal 1999 2) 1999 2 = true /\
  Num.nearest_decimal (Num.decimal 5005 3) 5005 3 = true /\
  Num.to_Z (Num.of_Z 1999) = Some 1999 /\
  Num.to_Z (Num.of_Z 501) = Some 501.
Proof.
  intros Hd Hi Hcu Hc. cbv zeta.
  rewrite (post_create_invoice_two _ _ _ _ _ _ _ _ _ _ Hd Hi Hcu Hc).
  cbv beta zeta. rewrite cents_19_99, cents_5_005.
  assert (Hnum : Num.nearest_decimal (Num.decimal 1999 2) 1999 2 = true /\
                 Num.nearest_decimal (Num.decimal 5005 3) 5005 3 = true /\
                 Num.to_Z (Num.of_Z 1999) = Some 1999 /\
                 Num.to_Z (Num.of_Z 501) = Some 501)
    by (vm_compute; auto).
  destruct (perform client _ w) as [[v1 | e1] w1].
  2: { cbn. repeat split; try lia; try apply Hnum.
       intros Hf. inversion Hf as [| ? ? Hh _]; subst. discriminate (Hh eq_refl). }
  destruct (perform client _ w1) as [[v2 | e2] w2].
  2: { cbn. repeat split; try lia; try apply Hnum.
       intros Hf. inversion Hf as [| ? ? _ Hf']; subst.
       inversion Hf' as [| ? ? Hh _]; subst. discriminate (Hh eq_refl). }
  destruct (perform client _ w2) as [[v3 | e3] w3];
    cbn; repeat split; try lia; try apply Hnum.
Qed.

(** C5: for [amount = 10.004], [process_payment] issues one call, the
    creation of a payment intent of 1000 minor units: [10.004 * 100] is
    computed first, is not an integer, and is rounded once to 1000. *)
Theorem payment_amount_in_cents (client : StripeClient World)
    (req_body params currency payment_method customer : value) (w : World) :
  Js.destructure req_body = inr (VStr "process_payment", params) ->
  Js.prop params "amount" = inr (VNum (Num.decimal 10004 3)) ->
  Js.prop params "currency" = inr currency ->
  Js.prop params "payment_method" = inr payment_method ->
  Js.prop params "customer_id" = inr customer ->
  map ev_call (trace (post_mcp (Some client) req_body w)) =
    [PaymentIntentsCreate
       (VObj [("amount", VNum (Num.of_Z 1000));
              ("currency", Js.or currency (VStr "usd"));
              ("payment_method", payment_method);
              ("customer", customer);
              ("confirmation_method", VStr "manual");
              ("confirm", VBool true);
              ("return_url", VStr "https://your-website.com/return")])] /\
  Num.nearest_decimal (Num.decimal 10004 3) 10004 3 = true /\
  Num.to_Z (Num.mul (Num.decimal 10004 3) (Num.of_Z 100)) = None /\
  Num.round (Num.mul (Num.decimal 10004 3) (Num.of_Z 100)) = Num.of_Z 1000 /\
  Num.to_Z (Num.of_Z 1000) = Some 1000.
Proof.
  intros Hd Ha Hc Hp Hcu. split; [| vm_compute; auto].
  rewrite (post_process_payment _ _ _ _ _ _ _ _ _ Hd Ha eq_refl Hc Hp Hcu).
  rewrite cents_10_004. cbv zeta.
  destruct (perform client _ w) as [[v | e] w1]; reflexivity.
Qed.

(** C8 (as amended): with the client present and [params] readable,
    [create_customer] issues one call, the creation of a customer with the
    given email and with the given description when that is truthy, the
    marker ['Created via MCP'] otherwise (absent or falsy); when the call
    resolves, the customer record is returned in a success envelope, and
    when it is rejected, the failure envelope carries its message. *)
Theorem create_customer_forwards (client : StripeClient World)
    (req_body params email description : value) (w : World) :
  Js.destructure req_body = inr (VStr "create_customer", params) ->
  Js.prop params "email" = inr email ->
  Js.prop params "description" = inr description ->
  let c := CustomersCreate
             (VObj [("email", email);
                    ("description",
                     if Js.ToBoolean description then description
                     else VStr "Created via MCP")]) in
  post_mcp (Some client) req_body w =
  match perform client c w with
  | (Resolved customer, w1) =>
      ({| status := 200;
          body := VObj [("success", VBool true); ("customer", customer)] |},
       w1, [{| ev_call := c; ev_outcome := Resolved customer |}])
  | (Rejected error, w1) =>
      ({| status := 500;
          body := VObj [("error", message error);
                        ("type", Js.or (type error) (VStr "api_error"))] |},
       w1, [{| ev_call := c; ev_outcome := Rejected error |}])
  end.
Proof.
  intros Hd He Hdesc. exact (post_create_customer _ _ _ _ _ _ Hd He Hdesc).
Qed.

(** C10: a [create_customer] request whose [description] is present but
    falsy (the empty string, [null], [false], a zero) is served exactly as
    the request with the same email and no description: the description
    forwarded is the marker ['Created via MCP'], not the falsy value. *)
Theorem falsy_description_defaults (client : StripeClient World)
    (req_body req_body' params params' email description : value) (w : World) :
  Js.destructure req_body = inr (VStr "create_customer", params) ->
  Js.destructure req_body' = inr (VStr "create_customer", params') ->
  Js.prop params "email" = inr email ->
  Js.prop params' "email" = inr email ->
  Js.prop params "description" = inr description ->
  Js.ToBoolean description = false ->
  Js.prop params' "description" = inr VUndefined ->
  post_mcp (Some client) req_body w = post_mcp (Some client) req_body' w /\
  map ev_call (trace (post_mcp (Some client) req_body w)) =
    [CustomersCreate (VObj [("email", email);
                            ("description", VStr "Created via MCP")])].
Proof.
  intros Hd Hd' He He' Hdesc Hf Hdesc'.
  rewrite (post_create_customer _ _ _ _ _ _ Hd He Hdesc).
  rewrite (post_create_customer _ _ _ _ _ _ Hd' He' Hdesc').
  unfold Js.or. rewrite Hf. cbn [Js.ToBoolean]. cbv zeta. split; [reflexivity |].
  destruct (perform client _ w) as [[v | e] w1]; reflexivity.
Qed.

End DispatchFacts.

(** ** The theorems at concrete requests *)

Section Examples.

#[local] Existing Instance Demo.runtime.

(** Without a client the error text is the one of the source, and the body
    has no [type] field. *)
Lemma unconfigured_message_differs :
  let res := reply (post_mcp (World := nat) None (rpc "create_customer" (VObj [])) 0%nat) in
  field "error" (body res) <> Some (VStr "payment system not configured") /\
  field "error" (body res) =
    Some (VStr "Stripe not configured - STRIPE_SECRET_KEY environment variable is required") /\
  field "type" (body res) = None.
Proof. cbv zeta. repeat split. discriminate. Qed.

(** Three items, the second rejected: the third is never attempted. *)
Lemma second_item_failure_aborts_witness :
  let req_body :=
    rpc "create_invoice"
        (VObj [("customer_id", VStr "cus_1"); ("items", Demo.three_items)]) in
  let run := post_mcp (Some (Demo.rejecting 1)) req_body 0%nat in
  let arg := VObj [("customer", VStr "cus_1"); ("amount", VNum (Num.of_Z 501));
                   ("currency", VStr "usd"); ("description", VStr "B")] in
  nth_error (trace run) 1 =
    Some {| ev_call := InvoiceItemsCreate arg; ev_outcome := Rejected Demo.declined |} /\
  reply run =
    {| status := 500;
       body := VObj [("error", VStr "Your card was declined.");
                     ("type", VStr "StripeCardError")] |} /\
  List.length (trace run) = 2%nat /\
  Forall (fun ev => is_invoice_call (ev_call ev) = false) (trace run).
Proof.
  cbv zeta.
  assert (H : nth_error
                (trace (post_mcp (Some (Demo.rejecting 1))
                   (rpc "create_invoice"
                      (VObj [("customer_id", VStr "cus_1"); ("items", Demo.three_items)]))
                   0%nat)) 1 =
              Some {| ev_call := InvoiceItemsCreate
                        (VObj [("customer", VStr "cus_1"); ("amount", VNum (Num.of_Z 501));
                               ("currency", VStr "usd"); ("description", VStr "B")]);
                      ev_outcome := Rejected Demo.declined |})
    by (vm_compute; reflexivity).
  split; [exact H |].
  exact (second_item_failure_aborts (Demo.rejecting 1)
           (rpc "create_invoice"
              (VObj [("customer_id", VStr "cus_1"); ("items", Demo.three_items)]))
           (VObj [("customer_id", VStr "cus_1"); ("items", Demo.three_items)])
           _ _ 0%nat eq_refl H).
Defined.

(** The two items of the example, with a collaborator that accepts. *)
Lemma invoice_items_in_cents_witness :
  let req_body := rpc "create_invoice" (VObj [("items", Demo.two_items)]) in
  let t := trace (post_mcp (Some Demo.accepting) req_body 0%nat) in
  let line amount description :=
    InvoiceItemsCreate
      (VObj [("customer", VUndefined);
             ("amount", VNum (Num.of_Z amount));
             ("currency", VStr "usd");
             ("description", VStr description)]) in
  let expected :=
    [line 1999 "A"; line 501 "B";
     InvoicesCreate (VObj [("customer", VUndefined);
                           ("collection_method", VStr "send_invoice");
                           ("days_until_due", VNum (Num.of_Z 30))])] in
  (1 <= List.length t <= 3)%nat /\
  map ev_call t = firstn (List.length t) expected /\
  (Forall (fun ev => is_item_call (ev_call ev) = true ->
                     is_resolved (ev_outcome ev) = true) t ->
   List.length t = 3%nat) /\
  Num.nearest_decimal (Num.decimal 1999 2) 1999 2 = true /\
  Num.nearest_decimal (Num.decimal 5005 3) 5005 3 = true /\
  Num.to_Z (Num.of_Z 1999) = Some 1999 /\
  Num.to_Z (Num.of_Z 501) = Some 501.
Proof.
  exact (invoice_items_in_cents Demo.accepting
           (rpc "create_invoice" (VObj [("items", Demo.two_items)]))
           (VObj [("items", Demo.two_items)]) VUndefined VUndefined 0%nat
           eq_refl eq_refl eq_refl eq_refl).
Defined.

(** The method ["does_not_exist"]. *)
Lemma unknown_method_rejected_witness :
  post_mcp (Some Demo.accepting) (rpc "does_not_exist" (VObj [])) 0%nat =
  ({| status := 400;
      body := VObj [("error", VStr "Unknown method");
                    ("available_methods",
                     VArr [VStr "create_customer"; VStr "create_invoice";
                           VStr "process_payment"; VStr "retrieve_customer"])] |},
   0%nat, []).
Proof.
  apply (unknown_method_rejected Demo.accepting _ (VStr "does_not_exist") (VObj [])).
  - reflexivity.
  - simpl. intros [H | [H | [H | [H | []]]]]; discriminate H.
Defined.

(** A payment of 10.004 without a currency. *)
Lemma payment_amount_in_cents_witness :
  let params := VObj [("amount", VNum (Num.decimal 10004 3));
                      ("payment_method", VStr "pm_1");
                      ("customer_id", VStr "cus_1")] in
  map ev_call (trace (post_mcp (Some Demo.accepting) (rpc "process_payment" params) 0%nat)) =
    [PaymentIntentsCreate
       (VObj [("amount", VNum (Num.of_Z 1000));
              ("currency", VStr "usd");
              ("payment_method", VStr "pm_1");
              ("customer", VStr "cus_1");
              ("confirmation_method", VStr "manual");
              ("confirm", VBool true);
              ("return_url", VStr "https://your-website.com/return")])].
Proof.
  exact (proj1 (payment_amount_in_cents Demo.accepting
                  (rpc "process_payment"
                     (VObj [("amount", VNum (Num.decimal 10004 3));
                            ("payment_method", VStr "pm_1");
                            ("customer_id", VStr "cus_1")]))
                  (VObj [("amount", VNum (Num.decimal 10004 3));
                         ("payment_method", VStr "pm_1");
                         ("customer_id", VStr "cus_1")])
                  VUndefined (VStr "pm_1") (VStr "cus_1") 0%nat
                  eq_refl eq_refl eq_refl eq_refl eq_refl)).
Defined.

(** The key is set but the module cannot be loaded: no client, [GET /]
    says so, and [GET /health] reports the key. *)
Lemma health_flag_not_handle_presence :
  let env := Demo.env_with (Some "sk_test_123") in
  let g := initialize Demo.module_missing env in
  stripe g = None /\
  stripeConfigured (reply (handle env g (GetHealth Demo.now) 0%nat)) = Some (VBool true) /\
  field "status" (body (reply (handle env g GetRoot 0%nat))) =
    Some (VStr "stripe_not_configured").
Proof. cbv zeta. repeat split. Qed.

(** An empty description is replaced by the marker. *)
Lemma empty_description_not_forwarded :
  let req_body :=
    rpc "create_customer" (VObj [("email", VStr "a@b.c"); ("description", VStr "")]) in
  let calls := map ev_call (trace (post_mcp (Some Demo.accepting) req_body 0%nat)) in
  calls = [CustomersCreate (VObj [("email", VStr "a@b.c");
                                  ("description", VStr "Created via MCP")])] /\
  calls <> [CustomersCreate (VObj [("email", VStr "a@b.c"); ("description", VStr "")])].
Proof. cbv zeta. split; [reflexivity | discriminate]. Qed.

(** A description that is forwarded. *)
Lemma create_customer_forwards_witness :
  let params := VObj [("email", VStr "a@b.c"); ("description", VStr "VIP")] in
  post_mcp (Some Demo.accepting) (rpc "create_customer" params) 0%nat =
  ({| status := 200;
      body := VObj [("success", VBool true); ("customer", Demo.record)] |},
   1%nat,
   [{| ev_call := CustomersCreate (VObj [("email", VStr "a@b.c");
                                         ("description", VStr "VIP")]);
       ev_outcome := Resolved Demo.record |}]).
Proof.
  exact (create_customer_forwards Demo.accepting
           (rpc "create_customer"
              (VObj [("email", VStr "a@b.c"); ("description", VStr "VIP")]))
           (VObj [("email", VStr "a@b.c"); ("description", VStr "VIP")])
           (VStr "a@b.c") (VStr "VIP") 0%nat eq_refl eq_refl eq_refl).
Defined.

(** The empty description against no description. *)
Lemma falsy_description_defaults_witness :
  let given := rpc "create_customer" (VObj [("email", VStr "a@b.c"); ("description", VStr "")]) in
  let absent := rpc "create_customer" (VObj [("email", VStr "a@b.c")]) in
  post_mcp (Some Demo.accepting) given 0%nat = post_mcp (Some Demo.accepting) absent 0%nat /\
  map ev_call (trace (post_mcp (Some Demo.accepting) given 0%nat)) =
    [CustomersCreate (VObj [("email", VStr "a@b.c");
                            ("description", VStr "Created via MCP")])].
Proof.
  exact (falsy_description_defaults Demo.accepting
           (rpc "create_customer"
              (VObj [("email", VStr "a@b.c"); ("description", VStr "")]))
           (rpc "create_customer" (VObj [("email", VStr "a@b.c")]))
           (VObj [("email", VStr "a@b.c"); ("description", VStr "")])
           (VObj [("email", VStr "a@b.c")])
           (VStr "a@b.c") (VStr "") 0%nat
           eq_refl eq_refl eq_refl eq_refl eq_refl eq_refl eq_refl).
Defined.

End Examples.

(** ** Every method: failures, successes, malformed requests *)

Section HandlerFacts.

Context {World : Type} {rt : Runtime}.

Arguments Num.round : simpl never.
Arguments Num.mul : simpl never.
Arguments Num.of_Z : simpl never.
Arguments Num.decimal : simpl never.

Lemma stops_dispatch (client : StripeClient World) (req_body : value) :
  stops_at_rejection (dispatch client req_body).
Proof.
  unfold dispatch. apply stops_bind; [apply stops_lift | intros [method params]].
  destruct (Js.is_str method "create_customer");
    [unfold create_customer; auto 10 with gateway |].
  destruct (Js.is_str method "create_invoice"); [apply stops_create_invoice |].
  destruct (Js.is_str method "process_payment");
    [unfold process_payment; auto 12 using stops_cents with gateway |].
  destruct (Js.is_str method "retrieve_customer");
    [unfold retrieve_customer; auto 10 with gateway |].
  apply stops_ret.
Qed.

Lemma wraps_bind {A : Type} (m : M World A) (k : A -> M World response) :
  (forall a, wraps_last (k a)) -> wraps_last (bind m k).
Proof.
  intros Hk w res w2 t H. unfold bind in H.
  destruct (m w) as [[[e | a] w1] t1]; [discriminate |].
  destruct (k a w1) as [[r w3] t2] eqn:Ek. inversion H; subst.
  destruct (Hk a _ _ _ _ Ek) as (key & c & v & t0 & -> & Hres & Hkey).
  exists key, c, v, (t1 ++ t0). rewrite app_assoc. auto.
Qed.

Lemma wraps_await (client : StripeClient World) (c : call) (key : string) :
  In key ["customer"; "invoice"; "paymentIntent"] ->
  wraps_last (bind (await client c) (fun v => ret (ok key v))).
Proof.
  intros Hkey w res w1 t H. rewrite bind_await in H.
  destruct (perform client c w) as [[v | e] w2]; [| discriminate].
  cbn in H. inversion H; subst. exists key, c, v, []. auto.
Qed.

Lemma wraps_handlers (client : StripeClient World) (params : value) :
  wraps_last (create_customer client params) /\
  wraps_last (create_invoice client params) /\
  wraps_last (process_payment client params) /\
  wraps_last (retrieve_customer client params).
Proof.
  unfold create_customer, create_invoice, process_payment, retrieve_customer.
  repeat split;
    repeat first [ apply wraps_await; simpl; tauto | apply wraps_bind; intros ? ].
Qed.

(** X1: whatever the method, a call the collaborator rejects is the last
    call of the request (nothing is retried, nothing else is attempted), and
    the answer is HTTP 500 with the message of the rejection and its type,
    or ['api_error'] when it has none. *)
Theorem rejection_is_final (client : StripeClient World) (req_body : value)
    (w : World) (i : nat) (c : call) (error : exn) :
  nth_error (trace (post_mcp (Some client) req_body w)) i =
    Some {| ev_call := c; ev_outcome := Rejected error |} ->
  List.length (trace (post_mcp (Some client) req_body w)) = S i /\
  reply (post_mcp (Some client) req_body w) =
    {| status := 500;
       body := VObj [("error", message error);
                     ("type", if Js.ToBoolean (type error) then type error
                              else VStr "api_error")] |}.
Proof.
  unfold trace, reply, post_mcp.
  destruct (dispatch client req_body w) as [[r w1] t] eqn:E. intros Hn.
  assert (Hs : r = inl error /\ List.length t = S i).
  { destruct r; change (nth_error t i = Some
      {| ev_call := c; ev_outcome := Rejected error |}) in Hn;
      exact (stops_dispatch _ _ _ _ _ _ E _ _ _ Hn). }
  destruct Hs as [-> Hlen]. split; [exact Hlen | reflexivity].
Qed.

(** X2: an answer with HTTP 200 comes only after at least one call, with
    every call of the request resolved, and its body is
    [{ success: true, <key>: v }] where [v] is what the last call resolved
    to and the key is [customer], [invoice] or [paymentIntent]. *)
Theorem success_wraps_last_result (client : StripeClient World) (req_body : value)
    (w : World) :
  status (reply (post_mcp (Some client) req_body w)) = 200 ->
  exists key c v earlier,
    trace (post_mcp (Some client) req_body w) =
      earlier ++ [{| ev_call := c; ev_outcome := Resolved v |}] /\
    body (reply (post_mcp (Some client) req_body w)) =
      VObj [("success", VBool true); (key, v)] /\
    In key ["customer"; "invoice"; "paymentIntent"] /\
    Forall (fun ev => is_resolved (ev_outcome ev) = true)
           (trace (post_mcp (Some client) req_body w)).
Proof.
  unfold trace, reply, post_mcp.
  destruct (dispatch client req_body w) as [[[e | res] w1] t] eqn:E;
    cbn [fst snd]; [discriminate |].
  intros Hst.
  assert (Hw : exists key c v t0,
             t = t0 ++ [{| ev_call := c; ev_outcome := Resolved v |}] /\
             res = ok key v /\ In key ["customer"; "invoice"; "paymentIntent"]).
  { unfold dispatch in E.
    destruct (Js.destructure req_body) as [e | [method params]];
      [rewrite bind_lift_inl in E; discriminate | rewrite bind_lift_inr in E].
    destruct (wraps_handlers client params) as (H1 & H2 & H3 & H4).
    destruct (Js.is_str method "create_customer"); [exact (H1 _ _ _ _ E) |].
    destruct (Js.is_str method "create_invoice"); [exact (H2 _ _ _ _ E) |].
    destruct (Js.is_str method "process_payment"); [exact (H3 _ _ _ _ E) |].
    destruct (Js.is_str method "retrieve_customer"); [exact (H4 _ _ _ _ E) |].
    inversion E; subst. discriminate. }
  destruct Hw as (key & c & v & t0 & -> & -> & Hkey).
  exists key, c, v, t0. repeat split; auto.
  apply Forall_forall. intros ev Hin.
  destruct ev as [c' [v' | e']]; [reflexivity |].
  destruct (In_nth_error _ _ Hin) as [i Hi].
  destruct (stops_dispatch _ _ _ _ _ _ E _ _ _ Hi) as [Habs _]. discriminate.
Qed.

(** X3: [retrieve_customer] issues one call, the lookup of
    [params.customer_id]; the record found is returned under [customer], and
    a rejection gives the failure envelope. *)
Theorem retrieve_customer_by_id (client : StripeClient World)
    (req_body params id : value) (w : World) :
  Js.destructure req_body = inr (VStr "retrieve_customer", params) ->
  Js.prop params "customer_id" = inr id ->
  post_mcp (Some client) req_body w =
  match perform client (CustomersRetrieve id) w with
  | (Resolved customer, w1) =>
      ({| status := 200;
          body := VObj [("success", VBool true); ("customer", customer)] |},
       w1, [{| ev_call := CustomersRetrieve id; ev_outcome := Resolved customer |}])
  | (Rejected error, w1) =>
      ({| status := 500;
          body := VObj [("error", message error);
                        ("type", Js.or (type error) (VStr "api_error"))] |},
       w1, [{| ev_call := CustomersRetrieve id; ev_outcome := Rejected error |}])
  end.
Proof.
  intros Hd Hid. unfold post_mcp.
  rewrite (dispatch_retrieve_customer _ _ _ _ Hd). unfold retrieve_customer.
  rewrite Hid, bind_lift_inr, bind_await.
  destruct (perform client _ w) as [[v | e] w1]; reflexivity.
Qed.

(** X14: whenever [params.amount] converts to a number, [process_payment]
    issues one call, the creation of a payment intent of
    [Math.round(amount * 100)] with the currency of the request or ['usd'],
    the payment method and customer of the request, manual confirmation,
    [confirm: true] and the placeholder return address; the intent is
    returned under [paymentIntent], and a rejection gives the failure
    envelope. *)
Theorem process_payment_single_call (client : StripeClient World)
    (req_body params amount currency payment_method customer : value)
    (n : number) (w : World) :
  Js.destructure req_body = inr (VStr "process_payment", params) ->
  Js.prop params "amount" = inr amount ->
  Js.ToNumber amount = inr n ->
  Js.prop params "currency" = inr currency ->
  Js.prop params "payment_method" = inr payment_method ->
  Js.prop params "customer_id" = inr customer ->
  let c := PaymentIntentsCreate
             (VObj [("amount", VNum (Num.round (Num.mul n (Num.of_Z 100))));
                    ("currency", if Js.ToBoolean currency then currency
                                 else VStr "usd");
                    ("payment_method", payment_method);
                    ("customer", customer);
                    ("confirmation_method", VStr "manual");
                    ("confirm", VBool true);
                    ("return_url", VStr "https://your-website.com/return")]) in
  post_mcp (Some client) req_body w =
  match perform client c w with
  | (Resolved paymentIntent, w1) =>
      ({| status := 200;
          body := VObj [("success", VBool true); ("paymentIntent", paymentIntent)] |},
       w1, [{| ev_call := c; ev_outcome := Resolved paymentIntent |}])
  | (Rejected error, w1) =>
      ({| status := 500;
          body := VObj [("error", message error);
                        ("type", Js.or (type error) (VStr "api_error"))] |},
       w1, [{| ev_call := c; ev_outcome := Rejected error |}])
  end.
Proof.
  intros Hd Ha Hn Hc Hp Hcu.
  exact (post_process_payment _ _ _ _ _ _ _ _ _ Hd Ha Hn Hc Hp Hcu).
Qed.

(** X15: when [params.amount] cannot be converted to a number (an object
    with an own [toString] property, or an array whose conversion meets
    one), [process_payment] throws before any call: the answer is HTTP 500
    with the text of the engine's [TypeError] about that object and type
    ['api_error'], and the collaborator is not called. *)
Theorem unconvertible_amount_rejected (client : StripeClient World)
    (req_body params amount v : value) (w : World) :
  Js.destructure req_body = inr (VStr "process_payment", params) ->
  Js.prop params "amount" = inr amount ->
  Js.ToNumber amount = inl (Js.TypeError (NoPrimitive v)) ->
  post_mcp (Some client) req_body w =
  ({| status := 500; body := type_error_body (NoPrimitive v) |}, w, []).
Proof.
  intros Hd Ha Hn. unfold post_mcp.
  rewrite (dispatch_process_payment _ _ _ _ Hd). unfold process_payment, cents.
  rewrite Ha, bind_lift_inr, Hn. reflexivity.
Qed.

(** X4: [process_payment] does not validate the amount: a request without
    [amount] still reaches the collaborator, with the amount NaN, manual
    confirmation, [confirm: true] and the placeholder return address. *)
Theorem payment_without_amount (client : StripeClient World)
    (req_body params currency payment_method customer : value) (w : World) :
  Js.destructure req_body = inr (VStr "process_payment", params) ->
  Js.prop params "amount" = inr VUndefined ->
  Js.prop params "currency" = inr currency ->
  Js.prop params "payment_method" = inr payment_method ->
  Js.prop params "customer_id" = inr customer ->
  map ev_call (trace (post_mcp (Some client) req_body w)) =
    [PaymentIntentsCreate
       (VObj [("amount", VNum S754_nan);
              ("currency", Js.or currency (VStr "usd"));
              ("payment_method", payment_method);
              ("customer", customer);
              ("confirmation_method", VStr "manual");
              ("confirm", VBool true);
              ("return_url", VStr "https://your-website.com/return")])].
Proof.
  intros Hd Ha Hc Hp Hcu.
  rewrite (post_process_payment _ _ _ _ _ _ _ _ _ Hd Ha eq_refl Hc Hp Hcu).
  cbv zeta. change (Num.round (Num.mul Num.NaN (Num.of_Z 100))) with S754_nan.
  destruct (perform client _ w) as [[v | e] w1]; reflexivity.
Qed.

Lemma create_items_objects (client : StripeClient World)
    (params customer currency : value) :
  Js.prop params "customer_id" = inr customer ->
  Js.prop params "currency" = inr currency ->
  forall (l : list (number * string)) (w w1 : World) (r : exn + unit)
         (t : list event),
    create_items client params (item_objects l) w = (r, w1, t) ->
    map ev_call t = firstn (List.length t) (map (line_item customer currency) l) /\
    match r with
    | inr _ =>
        List.length t = List.length l /\
        Forall (fun ev => is_resolved (ev_outcome ev) = true) t
    | inl e =>
        exists t0 ad,
          t = t0 ++ [{| ev_call := line_item customer currency ad;
                        ev_outcome := Rejected e |}]
    end.
Proof.
  intros Hcu Hc. induction l as [| ad l IH]; intros w w1 r t H.
  - inversion H; subst. cbn. auto.
  - cbn [item_objects map create_items] in H.
    rewrite (bind_silent _ _ _ _ (invoice_item_run _ _ _ _ _ _ Hcu Hc)) in H.
    rewrite bind_await in H. fold (line_item customer currency ad) in H.
    destruct (perform client _ w) as [[v | e] w2].
    + destruct (create_items client params (map _ l) w2) as [[r2 w3] t2] eqn:E.
      inversion H; subst. destruct (IH _ _ _ _ E) as [Hcalls Hr].
      split; [cbn; now rewrite Hcalls |].
      destruct r as [e | u].
      * destruct Hr as (t0 & ad' & ->). eexists (_ :: t0), ad'. reflexivity.
      * destruct Hr as [Hlen Hres]. split; [cbn; now rewrite Hlen |].
        constructor; [reflexivity | exact Hres].
    + inversion H; subst. split; [reflexivity |]. exists [], ad. reflexivity.
Qed.

(** The calls of [create_invoice] on items with a number as amount and a
    string as description. *)
Lemma create_invoice_objects_calls (client : StripeClient World)
    (req_body params customer currency : value) (l : list (number * string))
    (w : World) :
  Js.destructure req_body = inr (VStr "create_invoice", params) ->
  Js.prop params "items" = inr (VArr (item_objects l)) ->
  Js.prop params "customer_id" = inr customer ->
  Js.prop params "currency" = inr currency ->
  let t := trace (post_mcp (Some client) req_body w) in
  let expected := map (line_item customer currency) l ++ [invoice_for customer] in
  (1 <= List.length t <= S (List.length l))%nat /\
  map ev_call t = firstn (List.length t) expected /\
  (Forall (fun ev => is_item_call (ev_call ev) = true ->
                     is_resolved (ev_outcome ev) = true) t ->
   List.length t = S (List.length l)).
Proof.
  intros Hd Hi Hcu Hc. cbv zeta.
  destruct (post_mcp (Some client) req_body w) as [[res w'] t] eqn:Hrun.
  unfold trace. cbn [snd]. unfold post_mcp in Hrun.
  rewrite (dispatch_create_invoice _ _ _ _ Hd) in Hrun. unfold create_invoice in Hrun.
  rewrite Hi, bind_lift_inr in Hrun.
  change (Js.iterate (Js.or (VArr ?x) (VArr []))) with (@inr exn _ x) in Hrun.
  rewrite bind_lift_inr in Hrun. unfold bind at 1 in Hrun.
  destruct (create_items client params (item_objects l) w) as [[[e | []] w1] t1] eqn:E;
    destruct (create_items_objects _ _ _ _ Hcu Hc _ _ _ _ _ E) as [Hcalls Hr].
  - inversion Hrun; subst res w' t. destruct Hr as (t0 & ad & Ht1).
    assert (Hle : (List.length t1 <= List.length l)%nat).
    { apply (f_equal (@List.length call)) in Hcalls.
      rewrite length_map, length_firstn, length_map in Hcalls. lia. }
    repeat split.
    + subst t1. rewrite length_app. simpl. lia.
    + lia.
    + rewrite firstn_app, length_map.
      replace (List.length t1 - List.length l)%nat with 0%nat by lia.
      cbn [firstn]. now rewrite app_nil_r.
    + intros Hf. subst t1. apply Forall_app in Hf. destruct Hf as [_ Hf].
      inversion Hf as [| ? ? Hh _]; subst. discriminate (Hh eq_refl).
  - destruct Hr as [Hlen Hres]. rewrite Hcu, bind_lift_inr, bind_await in Hrun.
    fold (invoice_for customer) in Hrun.
    assert (Hall : forall o,
      map ev_call (t1 ++ [{| ev_call := invoice_for customer; ev_outcome := o |}]) =
      firstn (List.length (t1 ++ [{| ev_call := invoice_for customer;
                                     ev_outcome := o |}]))
             (map (line_item customer currency) l ++ [invoice_for customer])).
    { intros o. rewrite firstn_all2.
      - rewrite map_app, Hcalls. rewrite firstn_all2 by (rewrite length_map; lia).
        reflexivity.
      - rewrite !length_app, length_map. simpl. lia. }
    destruct (perform client _ w1) as [[v | e] w2]; cbn [ret app] in Hrun;
      inversion Hrun; subst res w' t;
      (repeat split;
       [ rewrite length_app; simpl; lia
       | rewrite length_app; simpl; lia
       | apply Hall
       | intros _; rewrite length_app; simpl; lia ]).
Qed.

(** X5: for any list of items with a number as amount and a string as
    description, [create_invoice] issues the line-item calls in the order of
    the list, each with [Math.round(amount * 100)], and then the creation of
    the invoice (['send_invoice'], 30 days): the calls issued are always a
    non-empty prefix of that sequence, and the whole of it when no line item
    is rejected. *)
Theorem create_invoice_in_order (client : StripeClient World)
    (req_body params customer currency : value) (l : list (number * string))
    (w : World) :
  Js.destructure req_body = inr (VStr "create_invoice", params) ->
  Js.prop params "items" = inr (VArr (item_objects l)) ->
  Js.prop params "customer_id" = inr customer ->
  Js.prop params "currency" = inr currency ->
  let t := trace (post_mcp (Some client) req_body w) in
  let expected := map (line_item customer currency) l ++ [invoice_for customer] in
  (1 <= List.length t <= S (List.length l))%nat /\
  map ev_call t = firstn (List.length t) expected /\
  (Forall (fun ev => is_item_call (ev_call ev) = true ->
                     is_resolved (ev_outcome ev) = true) t ->
   List.length t = S (List.length l)).
Proof.
  intros Hd Hi Hcu Hc.
  exact (create_invoice_objects_calls _ _ _ _ _ _ _ Hd Hi Hcu Hc).
Qed.

(** C9: in [create_invoice] and [process_payment], the calls are issued
    with the currency ['usd'] when the request has no [currency], and with
    the currency of the request, unchanged, when that is truthy.
    [process_payment] issues its one call, the creation of the payment
    intent, with that currency (whenever the amount converts to a number);
    [create_invoice] issues the line-item calls, each with that currency,
    in the order of the items and before the creation of the invoice; and no
    call of either method carries another currency. *)
Theorem currency_defaults_to_usd (client : StripeClient World)
    (req_body params currency : value) (method : string) (w : World) :
  Js.destructure req_body = inr (VStr method, params) ->
  method = "create_invoice" \/ method = "process_payment" ->
  Js.prop params "currency" = inr currency ->
  currency = VUndefined \/ Js.ToBoolean currency = true ->
  let expected := match currency with VUndefined => VStr "usd" | _ => currency end in
  let t := trace (post_mcp (Some client) req_body w) in
  Forall (fun ev => has_currency expected (ev_call ev)) t /\
  (method = "process_payment" ->
   forall (amount payment_method customer : value) (n : number),
     Js.prop params "amount" = inr amount ->
     Js.ToNumber amount = inr n ->
     Js.prop params "payment_method" = inr payment_method ->
     Js.prop params "customer_id" = inr customer ->
     map ev_call t =
       [PaymentIntentsCreate
          (VObj [("amount", VNum (Num.round (Num.mul n (Num.of_Z 100))));
                 ("currency", expected);
                 ("payment_method", payment_method);
                 ("customer", customer);
                 ("confirmation_method", VStr "manual");
                 ("confirm", VBool true);
                 ("return_url", VStr "https://your-website.com/return")])]) /\
  (method = "create_invoice" ->
   forall (l : list (number * string)) (customer : value),
     Js.prop params "items" = inr (VArr (item_objects l)) ->
     Js.prop params "customer_id" = inr customer ->
     let line ad :=
       InvoiceItemsCreate
         (VObj [("customer", customer);
                ("amount", VNum (Num.round (Num.mul (fst ad) (Num.of_Z 100))));
                ("currency", expected);
                ("description", VStr (snd ad))]) in
     (1 <= List.length t <= S (List.length l))%nat /\
     map ev_call t = firstn (List.length t) (map line l ++ [invoice_for customer]) /\
     (Forall (fun ev => is_item_call (ev_call ev) = true ->
                        is_resolved (ev_outcome ev) = true) t ->
      List.length t = S (List.length l))).
Proof.
  intros Hd Hm Hc Hcur. cbv zeta.
  assert (Hexp : Js.or currency (VStr "usd") =
                 match currency with VUndefined => VStr "usd" | _ => currency end).
  { destruct Hcur as [-> | Ht]; [reflexivity |].
    unfold Js.or. rewrite Ht. destruct currency; try reflexivity. discriminate. }
  rewrite <- Hexp. split; [| split].
  - unfold trace, post_mcp. destruct Hm as [-> | ->].
    + rewrite (dispatch_create_invoice _ _ _ _ Hd).
      destruct (create_invoice client params w) as [[r w1] t] eqn:E.
      pose proof (only_create_invoice client params currency Hc _ _ _ _ E) as Ht.
      destruct r; exact Ht.
    + rewrite (dispatch_process_payment _ _ _ _ Hd).
      destruct (process_payment client params w) as [[r w1] t] eqn:E.
      pose proof (only_process_payment client params currency Hc _ _ _ _ E) as Ht.
      destruct r; exact Ht.
  - intros ->. intros amount payment_method customer n Ha Hn Hp Hcu.
    rewrite (post_process_payment _ _ _ _ _ _ _ _ _ Hd Ha Hn Hc Hp Hcu). cbv zeta.
    destruct (perform client _ w) as [[v | e] w1]; reflexivity.
  - intros ->. intros l customer Hi Hcu.
    exact (create_invoice_objects_calls _ _ _ _ _ _ _ Hd Hi Hcu Hc).
Qed.

(** X6: when [params.items] is absent, falsy or an empty array,
    [create_invoice] issues one call only, the creation of the invoice for
    [params.customer_id], and answers with its result. *)
Theorem create_invoice_without_items (client : StripeClient World)
    (req_body params items customer : value) (w : World) :
  Js.destructure req_body = inr (VStr "create_invoice", params) ->
  Js.prop params "items" = inr items ->
  Js.ToBoolean items = false \/ items = VArr [] ->
  Js.prop params "customer_id" = inr customer ->
  post_mcp (Some client) req_body w =
  match perform client (invoice_for customer) w with
  | (Resolved invoice, w1) =>
      ({| status := 200;
          body := VObj [("success", VBool true); ("invoice", invoice)] |},
       w1, [{| ev_call := invoice_for customer; ev_outcome := Resolved invoice |}])
  | (Rejected error, w1) =>
      ({| status := 500;
          body := VObj [("error", message error);
                        ("type", Js.or (type error) (VStr "api_error"))] |},
       w1, [{| ev_call := invoice_for customer; ev_outcome := Rejected error |}])
  end.
Proof.
  intros Hd Hi Hempty Hcu. unfold post_mcp.
  rewrite (dispatch_create_invoice _ _ _ _ Hd). unfold create_invoice.
  rewrite Hi, bind_lift_inr.
  assert (Hit : Js.iterate (Js.or items (VArr [])) = inr []).
  { destruct Hempty as [Hf | ->]; [unfold Js.or; rewrite Hf |]; reflexivity. }
  rewrite Hit, bind_lift_inr. cbn [create_items]. rewrite bind_ret.
  rewrite Hcu, bind_lift_inr, bind_await. fold (invoice_for customer).
  destruct (perform client _ w) as [[v | e] w1]; reflexivity.
Qed.

(** X7: when [params.items] is truthy but neither an array nor a string (an
    object, a number, [true]), the loop throws before any call: the answer
    is HTTP 500 with the text of the engine's [TypeError] about that value
    and type ['api_error'], and the collaborator is not called. *)
Theorem items_not_iterable (client : StripeClient World)
    (req_body params items : value) (w : World) :
  Js.destructure req_body = inr (VStr "create_invoice", params) ->
  Js.prop params "items" = inr items ->
  Js.ToBoolean items = true ->
  match items with VArr _ | VStr _ => False | _ => True end ->
  post_mcp (Some client) req_body w =
  ({| status := 500; body := type_error_body (NotIterable items) |}, w, []).
Proof.
  intros Hd Hi Ht Hshape. unfold post_mcp.
  rewrite (dispatch_create_invoice _ _ _ _ Hd). unfold create_invoice.
  rewrite Hi, bind_lift_inr. unfold Js.or. rewrite Ht.
  destruct items; try contradiction; reflexivity.
Qed.

Lemma create_items_nullish (client : StripeClient World)
    (params customer currency bad : value) (rest : list value) :
  Js.prop params "customer_id" = inr customer ->
  Js.prop params "currency" = inr currency ->
  is_nullish bad = true ->
  forall (l : list (number * string)) (w : World),
    exists e w1 t,
      create_items client params (item_objects l ++ bad :: rest) w = (inl e, w1, t) /\
      map ev_call t = firstn (List.length t) (map (line_item customer currency) l) /\
      (Forall (fun ev => is_resolved (ev_outcome ev) = true) t ->
       List.length t = List.length l /\
       e = Js.TypeError (NullishProperty "amount" bad)).
Proof.
  intros Hcu Hc Hbad. induction l as [| ad l IH]; intros w.
  - exists (Js.TypeError (NullishProperty "amount" bad)), w, [].
    repeat split. cbn [item_objects map app create_items]. unfold invoice_item.
    rewrite Hcu. destruct bad; try discriminate; reflexivity.
  - cbn [item_objects map app create_items].
    rewrite (bind_silent _ _ _ _ (invoice_item_run _ _ _ _ _ _ Hcu Hc)).
    rewrite bind_await. fold (line_item customer currency ad).
    destruct (perform client _ w) as [[v | e] w2].
    + destruct (IH w2) as (e & w1 & t & E & Hcalls & Hres).
      unfold item_objects in E. rewrite E.
      exists e, w1,
        ({| ev_call := line_item customer currency ad; ev_outcome := Resolved v |} :: t).
      split; [reflexivity |]. split; [cbn; now rewrite Hcalls |].
      intros Hf. inversion Hf as [| ? ? _ Hf']; subst.
      destruct (Hres Hf') as [Hlen He]. split; [cbn; now rewrite Hlen | exact He].
    + exists e, w2,
        [{| ev_call := line_item customer currency ad; ev_outcome := Rejected e |}].
      split; [reflexivity |]. split; [reflexivity |].
      intros Hf. inversion Hf as [| ? ? Hh _]. discriminate Hh.
Qed.

(** X8: when an entry of [params.items] is [null] and the entries before it
    are well formed, the request ends in HTTP 500: at most the line items
    before the [null] are created, in order, nothing is issued for the
    entries after it, and no invoice is created; if the calls issued all
    resolved, all the entries before the [null] were created and the answer
    carries the engine's [TypeError] text with type ['api_error']. *)
Theorem null_item_aborts (client : StripeClient World)
    (req_body params customer currency bad : value)
    (l : list (number * string)) (rest : list value) (w : World) :
  Js.destructure req_body = inr (VStr "create_invoice", params) ->
  Js.prop params "items" = inr (VArr (item_objects l ++ bad :: rest)) ->
  Js.prop params "customer_id" = inr customer ->
  Js.prop params "currency" = inr currency ->
  is_nullish bad = true ->
  let t := trace (post_mcp (Some client) req_body w) in
  let res := reply (post_mcp (Some client) req_body w) in
  status res = 500 /\
  map ev_call t = firstn (List.length t) (map (line_item customer currency) l) /\
  (Forall (fun ev => is_resolved (ev_outcome ev) = true) t ->
   List.length t = List.length l /\
   body res = type_error_body (NullishProperty "amount" bad)).
Proof.
  intros Hd Hi Hcu Hc Hbad. cbv zeta.
  destruct (post_mcp (Some client) req_body w) as [[res w'] t'] eqn:Hrun.
  unfold trace, reply. cbn [fst snd]. unfold post_mcp in Hrun.
  rewrite (dispatch_create_invoice _ _ _ _ Hd) in Hrun. unfold create_invoice in Hrun.
  rewrite Hi, bind_lift_inr in Hrun.
  change (Js.iterate (Js.or (VArr ?x) (VArr []))) with (@inr exn _ x) in Hrun.
  rewrite bind_lift_inr in Hrun. unfold bind at 1 in Hrun.
  destruct (create_items_nullish client _ _ _ _ rest Hcu Hc Hbad l w)
    as (e & w1 & t & E & Hcalls & Hres).
  rewrite E in Hrun. inversion Hrun; subst res w' t'.
  repeat split; [exact Hcalls | apply Hres; assumption |].
  destruct (Hres H) as [_ ->]. reflexivity.
Qed.

(** X9: a request for one of the four methods whose [params] is [null] or
    missing is answered with HTTP 500, the text of the engine's [TypeError]
    about the first property the method reads of [params] ([email],
    [items], [amount], [customer_id]) and type ['api_error']; the
    collaborator is not called and the world is left as it was. *)
Theorem missing_params_rejected (client : StripeClient World)
    (req_body params : value) (name property : string) (w : World) :
  Js.destructure req_body = inr (VStr name, params) ->
  In (name, property)
     [("create_customer", "email"); ("create_invoice", "items");
      ("process_payment", "amount"); ("retrieve_customer", "customer_id")] ->
  is_nullish params = true ->
  post_mcp (Some client) req_body w =
  ({| status := 500; body := type_error_body (NullishProperty property params) |},
   w, []).
Proof.
  intros Hd Hin Hp. unfold post_mcp, dispatch. rewrite Hd, bind_lift_inr.
  simpl in Hin.
  destruct Hin as [H | [H | [H | [H | []]]]]; inversion H; subst name property;
    destruct params; try discriminate; reflexivity.
Qed.

End HandlerFacts.

(** ** Amounts in hundredths *)

Lemma number_eqb_eq (x y : number) : number_eqb x y = true -> x = y.
Proof.
  destruct x as [a | a | | a m e], y as [b | b | | b m' e']; simpl;
    try discriminate; try reflexivity.
  - intros H. apply eqb_prop in H. now subst.
  - intros H. apply eqb_prop in H. now subst.
  - intros H. apply andb_prop in H. destruct H as [H He].
    apply andb_prop in H. destruct H as [Hs Hm].
    apply eqb_prop in Hs. apply Pos.eqb_eq in Hm. apply Z.eqb_eq in He.
    now subst.
Qed.

Lemma cents_exact_below_spec (n : nat) :
  cents_exact_below n = true ->
  forall k, (k < n)%nat ->
    cents_of_hundredths (Z.of_nat k) = Num.of_Z (Z.of_nat k) /\
    (Z.of_nat k = 0 \/
     Num.nearest_decimal (Num.decimal (Z.of_nat k) 2) (Z.of_nat k) 2 = true).
Proof.
  induction n as [| n IH]; intros H k Hk; [lia |].
  cbn [cents_exact_below] in H. cbv zeta in H. unfold cents_of_hundredths.
  apply andb_prop in H. destruct H as [H Hrest].
  apply andb_prop in H. destruct H as [Hn Hnear].
  destruct (Nat.eq_dec k n) as [-> | Hne].
  - split; [now apply number_eqb_eq |].
    apply orb_prop in Hnear. destruct Hnear as [Hz | Hnear]; [left | right; exact Hnear].
    now apply Z.eqb_eq.
  - apply IH; [exact Hrest | lia].
Qed.

Lemma cents_exact_below_5000 : cents_exact_below (Z.to_nat 5000) = true.
Proof. vm_compute. reflexivity. Qed.

Section ServerFacts.

Context {World : Type} {rt : Runtime}.

(** X10: for every amount of whole hundredths from 0.00 to 49.99, given as
    the binary64 number nearest to the decimal (the number taken for it is
    within half a unit in the last place), [Math.round(amount * 100)] is
    exactly the number of hundredths: the binary representation of the
    amount never makes it a cent short or a cent over. *)
Theorem hundredths_convert_exactly (c : Z) (w : World) :
  0 <= c < 5000 ->
  cents (VNum (Num.decimal c 2)) w = (inr (VNum (Num.of_Z c)), w, []) /\
  (c = 0 \/ Num.nearest_decimal (Num.decimal c 2) c 2 = true).
Proof.
  intros Hc.
  destruct (cents_exact_below_spec _ cents_exact_below_5000 (Z.to_nat c))
    as [Hcents Hnear]; [lia |].
  rewrite Z2Nat.id in Hcents, Hnear by lia. split; [| exact Hnear].
  unfold cents. cbn [Js.ToNumber]. rewrite bind_lift_inr.
  unfold ret. f_equal. f_equal. f_equal. f_equal. exact Hcents.
Qed.

Lemma serve_without_client (env : environment) (g : globals World) :
  stripe g = None ->
  forall (rs : list request) (w : World),
    snd (serve env g rs w) = w /\
    calls_served env g rs w = [] /\
    Forall2 (fun r res =>
               forall req_body, r = PostMcp req_body ->
                 res = {| status := 500;
                          body := VObj [("error", VStr
       "Stripe not configured - STRIPE_SECRET_KEY environment variable is required")] |})
            rs (fst (serve env g rs w)).
Proof.
  intros Hg. induction rs as [| r rs IH]; intros w.
  - repeat split. constructor.
  - cbn [serve calls_served].
    assert (Hh : handle env g r w = (reply (handle env g r w), w, [])).
    { destruct r; cbn; try reflexivity. rewrite Hg. reflexivity. }
    rewrite Hh. destruct (IH w) as (Hw & Hcalls & Hres).
    destruct (serve env g rs w) as [ress w2]. cbn [fst snd] in *.
    repeat split; [exact Hw | exact Hcalls |].
    constructor; [| exact Hres].
    intros req_body ->. cbn. rewrite Hg. reflexivity.
Qed.

(** X11: a process started without a usable credential (the key unset or
    empty, or the construction of the client throwing) never calls the
    collaborator: whatever requests it serves, the outside world is left as
    it was, no call is issued, and every [POST /mcp] is answered with the
    HTTP 500 of the unconfigured server. *)
Theorem unconfigured_process_never_calls
    (require_stripe : string -> exn + StripeClient World) (env : environment)
    (rs : list request) (w : World) :
  ~ (exists key client,
       STRIPE_SECRET_KEY env = Some key /\ key <> "" /\
       require_stripe key = inr client) ->
  snd (run require_stripe env rs w) = w /\
  calls_served env (initialize require_stripe env) rs w = [] /\
  Forall2 (fun r res =>
             forall req_body, r = PostMcp req_body ->
               res = {| status := 500;
                        body := VObj [("error", VStr
       "Stripe not configured - STRIPE_SECRET_KEY environment variable is required")] |})
          rs (fst (run require_stripe env rs w)).
Proof.
  intros Hno. apply serve_without_client. unfold initialize.
  destruct (STRIPE_SECRET_KEY env) as [key |] eqn:Ek; [| reflexivity]. simpl.
  destruct (String.eqb_spec key "") as [-> | Hne]; [reflexivity |]. simpl.
  destruct (require_stripe key) as [e | c] eqn:Er; [reflexivity |].
  exfalso. apply Hno. exists key, c. auto.
Qed.

(** X12: the two [GET] routes never involve the collaborator, configured or
    not: a sequence of [GET /health] and [GET /] requests issues no call and
    leaves the outside world as it was, and every answer is HTTP 200. *)
Theorem get_routes_are_silent (env : environment) (g : globals World)
    (rs : list request) (w : World) :
  forallb is_get rs = true ->
  snd (serve env g rs w) = w /\
  calls_served env g rs w = [] /\
  Forall (fun res => status res = 200) (fst (serve env g rs w)).
Proof.
  revert w. induction rs as [| r rs IH]; intros w Hget.
  - repeat split. constructor.
  - cbn [forallb] in Hget. apply andb_prop in Hget. destruct Hget as [Hr Hrs].
    cbn [serve calls_served].
    destruct r; try discriminate; cbn [handle];
      destruct (IH w Hrs) as (Hw & Hcalls & Hres);
      destruct (serve env g rs w) as [ress w2]; cbn [fst snd] in *;
      (repeat split; [exact Hw | exact Hcalls | constructor; [reflexivity | exact Hres]]).
Qed.

(** X13: the methods [GET /] advertises under [tools] are exactly the ones
    [POST /mcp] dispatches: with the client present, a request for a method
    name is answered with HTTP 400 if and only if the name is not in the
    list. *)
Theorem advertised_methods_are_dispatched (g : globals World)
    (client : StripeClient World) (name : string) (params : value) (w : World) :
  exists tools,
    field "tools" (body (get_root g)) = Some (VArr tools) /\
    (In (VStr name) tools <->
     status (reply (post_mcp (Some client) (rpc name params) w)) <> 400).
Proof.
  exists (map str methods). split; [reflexivity |].
  unfold reply, post_mcp, dispatch.
  change (Js.destructure (rpc name params)) with (@inr exn _ (VStr name, params)).
  rewrite bind_lift_inr. cbn [Js.is_str].
  destruct (wraps_handlers client params) as (H1 & H2 & H3 & H4).
  assert (Hok : forall m : M World response, wraps_last m ->
            status (fst (fst match m w with
                             | (inr res, w1, t) => (res, w1, t)
                             | (inl error, w1, t) => (api_error error, w1, t)
                             end)) <> 400).
  { intros m Hm. destruct (m w) as [[[e | res] w1] t] eqn:E; cbn; [discriminate |].
    destruct (Hm _ _ _ _ E) as (key & c & v & t0 & _ & -> & _). discriminate. }
  destruct (String.eqb_spec name "create_customer") as [-> | N1];
    [split; [intros _; exact (Hok _ H1) | intros _; simpl; tauto] |].
  destruct (String.eqb_spec name "create_invoice") as [-> | N2];
    [split; [intros _; exact (Hok _ H2) | intros _; simpl; tauto] |].
  destruct (String.eqb_spec name "process_payment") as [-> | N3];
    [split; [intros _; exact (Hok _ H3) | intros _; simpl; tauto] |].
  destruct (String.eqb_spec name "retrieve_customer") as [-> | N4];
    [split; [intros _; exact (Hok _ H4) | intros _; simpl; tauto] |].
  cbn. split.
  - intros [H | [H | [H | [H | []]]]]; inversion H; congruence.
  - intros H. now elim H.
Qed.

End ServerFacts.

(** ** Further theorems at concrete requests *)

Section MoreExamples.

#[local] Existing Instance Demo.runtime.

(** Both methods, without a currency and with ["eur"]. *)
Lemma currency_defaults_to_usd_witness :
  let payment currency :=
    [PaymentIntentsCreate
       (VObj [("amount", VNum (Num.of_Z 1999));
              ("currency", VStr currency);
              ("payment_method", VUndefined);
              ("customer", VUndefined);
              ("confirmation_method", VStr "manual");
              ("confirm", VBool true);
              ("return_url", VStr "https://your-website.com/return")])] in
  let amount := ("amount", VNum (Num.decimal 1999 2)) in
  let items := ("items", Demo.two_items) in
  let calls method params :=
    trace (post_mcp (Some Demo.accepting) (rpc method (VObj params)) 0%nat) in
  map ev_call (calls "process_payment" [amount]) = payment "usd" /\
  map ev_call (calls "process_payment" [amount; ("currency", VStr "eur")]) =
    payment "eur" /\
  (List.length (calls "create_invoice" [items]) = 3%nat /\
   Forall (fun ev => has_currency (VStr "usd") (ev_call ev))
          (calls "create_invoice" [items])) /\
  (List.length (calls "create_invoice" [items; ("currency", VStr "eur")]) = 3%nat /\
   Forall (fun ev => has_currency (VStr "eur") (ev_call ev))
          (calls "create_invoice" [items; ("currency", VStr "eur")])).
Proof.
  cbv zeta. rewrite <- cents_19_99.
  pose (at_request := fun method params currency =>
    currency_defaults_to_usd Demo.accepting (rpc method (VObj params)) (VObj params)
      currency method 0%nat eq_refl).
  split; [| split; [| split; split; [reflexivity | | reflexivity |]]].
  - exact (proj1 (proj2 (at_request "process_payment"
                           [("amount", VNum (Num.decimal 1999 2))] VUndefined
                           (or_intror eq_refl) eq_refl (or_introl eq_refl)))
                 eq_refl (VNum (Num.decimal 1999 2)) VUndefined VUndefined
                 (Num.decimal 1999 2) eq_refl eq_refl eq_refl eq_refl).
  - exact (proj1 (proj2 (at_request "process_payment"
                           [("amount", VNum (Num.decimal 1999 2));
                            ("currency", VStr "eur")] (VStr "eur")
                           (or_intror eq_refl) eq_refl (or_intror eq_refl)))
                 eq_refl (VNum (Num.decimal 1999 2)) VUndefined VUndefined
                 (Num.decimal 1999 2) eq_refl eq_refl eq_refl eq_refl).
  - exact (proj1 (at_request "create_invoice" [("items", Demo.two_items)] VUndefined
                   (or_introl eq_refl) eq_refl (or_introl eq_refl))).
  - exact (proj1 (at_request "create_invoice"
                   [("items", Demo.two_items); ("currency", VStr "eur")] (VStr "eur")
                   (or_introl eq_refl) eq_refl (or_intror eq_refl))).
Defined.

(** A customer creation the collaborator rejects at once. *)
Lemma rejection_is_final_witness :
  let run := post_mcp (Some (Demo.rejecting 0))
               (rpc "create_customer" (VObj [("email", VStr "a@b.c")])) 0%nat in
  List.length (trace run) = 1%nat /\
  reply run =
    {| status := 500;
       body := VObj [("error", VStr "Your card was declined.");
                     ("type", VStr "StripeCardError")] |}.
Proof.
  exact (rejection_is_final (Demo.rejecting 0)
           (rpc "create_customer" (VObj [("email", VStr "a@b.c")])) 0%nat 0%nat
           (CustomersCreate (VObj [("email", VStr "a@b.c");
                                   ("description", VStr "Created via MCP")]))
           Demo.declined eq_refl).
Defined.

(** An invoice of two items, all calls accepted. *)
Lemma success_wraps_last_result_witness :
  let run := post_mcp (Some Demo.accepting)
               (rpc "create_invoice" (VObj [("items", Demo.two_items)])) 0%nat in
  exists key c v earlier,
    trace run = earlier ++ [{| ev_call := c; ev_outcome := Resolved v |}] /\
    body (reply run) = VObj [("success", VBool true); (key, v)] /\
    In key ["customer"; "invoice"; "paymentIntent"] /\
    Forall (fun ev => is_resolved (ev_outcome ev) = true) (trace run).
Proof.
  exact (success_wraps_last_result Demo.accepting
           (rpc "create_invoice" (VObj [("items", Demo.two_items)])) 0%nat eq_refl).
Defined.

(** The lookup of a customer. *)
Lemma retrieve_customer_by_id_witness :
  post_mcp (Some Demo.accepting)
    (rpc "retrieve_customer" (VObj [("customer_id", VStr "cus_1")])) 0%nat =
  ({| status := 200;
      body := VObj [("success", VBool true); ("customer", Demo.record)] |},
   1%nat,
   [{| ev_call := CustomersRetrieve (VStr "cus_1"); ev_outcome := Resolved Demo.record |}]).
Proof.
  exact (retrieve_customer_by_id Demo.accepting
           (rpc "retrieve_customer" (VObj [("customer_id", VStr "cus_1")]))
           (VObj [("customer_id", VStr "cus_1")]) (VStr "cus_1") 0%nat
           eq_refl eq_refl).
Defined.

(** A payment of 19.99 euros. *)
Lemma process_payment_single_call_witness :
  let params := VObj [("amount", VNum (Num.decimal 1999 2));
                      ("currency", VStr "eur")] in
  map ev_call (trace (post_mcp (Some Demo.accepting) (rpc "process_payment" params) 0%nat)) =
    [PaymentIntentsCreate
       (VObj [("amount", VNum (Num.of_Z 1999));
              ("currency", VStr "eur");
              ("payment_method", VUndefined);
              ("customer", VUndefined);
              ("confirmation_method", VStr "manual");
              ("confirm", VBool true);
              ("return_url", VStr "https://your-website.com/return")])].
Proof.
  cbv zeta.
  rewrite (process_payment_single_call Demo.accepting
             (rpc "process_payment"
                (VObj [("amount", VNum (Num.decimal 1999 2)); ("currency", VStr "eur")]))
             (VObj [("amount", VNum (Num.decimal 1999 2)); ("currency", VStr "eur")])
             (VNum (Num.decimal 1999 2)) (VStr "eur") VUndefined VUndefined
             (Num.decimal 1999 2) 0%nat
             eq_refl eq_refl eq_refl eq_refl eq_refl eq_refl).
  vm_compute. reflexivity.
Defined.

(** The amount [[{"toString": 1}]]. *)
Lemma unconvertible_amount_rejected_witness :
  let object := VObj [("toString", VNum (Num.of_Z 1))] in
  post_mcp (Some Demo.accepting)
    (rpc "process_payment" (VObj [("amount", VArr [object])])) 0%nat =
  ({| status := 500; body := type_error_body (NoPrimitive object) |}, 0%nat, []).
Proof.
  exact (unconvertible_amount_rejected Demo.accepting
           (rpc "process_payment"
              (VObj [("amount", VArr [VObj [("toString", VNum (Num.of_Z 1))]])]))
           (VObj [("amount", VArr [VObj [("toString", VNum (Num.of_Z 1))]])])
           (VArr [VObj [("toString", VNum (Num.of_Z 1))]])
           (VObj [("toString", VNum (Num.of_Z 1))]) 0%nat
           eq_refl eq_refl eq_refl).
Defined.

(** A payment without amount. *)
Lemma payment_without_amount_witness :
  map ev_call (trace (post_mcp (Some Demo.accepting)
                        (rpc "process_payment" (VObj [("customer_id", VStr "cus_1")]))
                        0%nat)) =
    [PaymentIntentsCreate
       (VObj [("amount", VNum S754_nan);
              ("currency", VStr "usd");
              ("payment_method", VUndefined);
              ("customer", VStr "cus_1");
              ("confirmation_method", VStr "manual");
              ("confirm", VBool true);
              ("return_url", VStr "https://your-website.com/return")])].
Proof.
  exact (payment_without_amount Demo.accepting
           (rpc "process_payment" (VObj [("customer_id", VStr "cus_1")]))
           (VObj [("customer_id", VStr "cus_1")]) VUndefined VUndefined (VStr "cus_1")
           0%nat eq_refl eq_refl eq_refl eq_refl eq_refl).
Defined.

(** Three items, the collaborator rejecting the third. *)
Lemma create_invoice_in_order_witness :
  let l := [(Num.decimal 1999 2, "A"); (Num.decimal 5005 3, "B"); (Num.of_Z 1, "C")] in
  let params := VObj [("customer_id", VStr "cus_1"); ("items", VArr (item_objects l))] in
  let t := trace (post_mcp (Some (Demo.rejecting 2)) (rpc "create_invoice" params) 0%nat) in
  let expected := map (line_item (VStr "cus_1") VUndefined) l ++ [invoice_for (VStr "cus_1")] in
  (1 <= List.length t <= 4)%nat /\
  map ev_call t = firstn (List.length t) expected /\
  (Forall (fun ev => is_item_call (ev_call ev) = true ->
                     is_resolved (ev_outcome ev) = true) t ->
   List.length t = 4%nat).
Proof.
  exact (create_invoice_in_order (Demo.rejecting 2)
           (rpc "create_invoice"
              (VObj [("customer_id", VStr "cus_1");
                     ("items", VArr (item_objects
                        [(Num.decimal 1999 2, "A"); (Num.decimal 5005 3, "B");
                         (Num.of_Z 1, "C")]))]))
           (VObj [("customer_id", VStr "cus_1");
                  ("items", VArr (item_objects
                     [(Num.decimal 1999 2, "A"); (Num.decimal 5005 3, "B");
                      (Num.of_Z 1, "C")]))])
           (VStr "cus_1") VUndefined
           [(Num.decimal 1999 2, "A"); (Num.decimal 5005 3, "B"); (Num.of_Z 1, "C")]
           0%nat eq_refl eq_refl eq_refl eq_refl).
Defined.

(** An invoice without [items]. *)
Lemma create_invoice_without_items_witness :
  post_mcp (Some Demo.accepting)
    (rpc "create_invoice" (VObj [("customer_id", VStr "cus_1")])) 0%nat =
  ({| status := 200;
      body := VObj [("success", VBool true); ("invoice", Demo.record)] |},
   1%nat,
   [{| ev_call := invoice_for (VStr "cus_1"); ev_outcome := Resolved Demo.record |}]).
Proof.
  exact (create_invoice_without_items Demo.accepting
           (rpc "create_invoice" (VObj [("customer_id", VStr "cus_1")]))
           (VObj [("customer_id", VStr "cus_1")]) VUndefined (VStr "cus_1") 0%nat
           eq_refl eq_refl (or_introl eq_refl) eq_refl).
Defined.

(** [items] an object instead of an array. *)
Lemma items_not_iterable_witness :
  post_mcp (Some Demo.accepting)
    (rpc "create_invoice" (VObj [("items", VObj [("amount", VNum (Num.of_Z 5))])])) 0%nat =
  ({| status := 500;
      body := type_error_body (NotIterable (VObj [("amount", VNum (Num.of_Z 5))])) |},
   0%nat, []).
Proof.
  exact (items_not_iterable Demo.accepting
           (rpc "create_invoice" (VObj [("items", VObj [("amount", VNum (Num.of_Z 5))])]))
           (VObj [("items", VObj [("amount", VNum (Num.of_Z 5))])])
           (VObj [("amount", VNum (Num.of_Z 5))]) 0%nat
           eq_refl eq_refl eq_refl I).
Defined.

(** [items = [{amount: 19.99, description: "A"}, null, {...}]]. *)
Lemma null_item_aborts_witness :
  let l := [(Num.decimal 1999 2, "A")] in
  let rest := [item_object (Num.of_Z 1) "C"] in
  let params := VObj [("items", VArr (item_objects l ++ VNull :: rest))] in
  let run := post_mcp (Some Demo.accepting) (rpc "create_invoice" params) 0%nat in
  status (reply run) = 500 /\
  map ev_call (trace run) =
    firstn (List.length (trace run)) (map (line_item VUndefined VUndefined) l) /\
  (Forall (fun ev => is_resolved (ev_outcome ev) = true) (trace run) ->
   List.length (trace run) = 1%nat /\
   body (reply run) = type_error_body (NullishProperty "amount" VNull)).
Proof.
  exact (null_item_aborts Demo.accepting
           (rpc "create_invoice"
              (VObj [("items", VArr (item_objects [(Num.decimal 1999 2, "A")]
                                     ++ VNull :: [item_object (Num.of_Z 1) "C"]))]))
           (VObj [("items", VArr (item_objects [(Num.decimal 1999 2, "A")]
                                  ++ VNull :: [item_object (Num.of_Z 1) "C"]))])
           VUndefined VUndefined VNull [(Num.decimal 1999 2, "A")]
           [item_object (Num.of_Z 1) "C"] 0%nat
           eq_refl eq_refl eq_refl eq_refl eq_refl).
Defined.

(** A request for [create_invoice] without [params]. *)
Lemma missing_params_rejected_witness :
  post_mcp (Some Demo.accepting) (VObj [("method", VStr "create_invoice")]) 0%nat =
  ({| status := 500; body := type_error_body (NullishProperty "items" VUndefined) |},
   0%nat, []).
Proof.
  apply (missing_params_rejected Demo.accepting
           (VObj [("method", VStr "create_invoice")]) VUndefined
           "create_invoice" "items" 0%nat).
  - reflexivity.
  - simpl. tauto.
  - reflexivity.
Defined.

(** The amount 19.99. *)
Lemma hundredths_convert_exactly_witness :
  cents (VNum (Num.decimal 1999 2)) 0%nat = (inr (VNum (Num.of_Z 1999)), 0%nat, []).
Proof.
  apply (hundredths_convert_exactly 1999 0%nat). lia.
Defined.

(** A process started without [STRIPE_SECRET_KEY]. *)
Lemma unconfigured_process_never_calls_witness :
  let env := Demo.env_with None in
  let rs := [PostMcp (rpc "create_customer" (VObj [("email", VStr "a@b.c")]));
             GetRoot;
             PostMcp (rpc "does_not_exist" VNull)] in
  snd (run Demo.module_present env rs 0%nat) = 0%nat /\
  calls_served env (initialize Demo.module_present env) rs 0%nat = [].
Proof.
  assert (H : ~ (exists key client,
                   STRIPE_SECRET_KEY (Demo.env_with None) = Some key /\ key <> "" /\
                   Demo.module_present key = inr client))
    by (intros (key & client & Hk & _); discriminate Hk).
  destruct (unconfigured_process_never_calls Demo.module_present (Demo.env_with None)
              [PostMcp (rpc "create_customer" (VObj [("email", VStr "a@b.c")]));
               GetRoot;
               PostMcp (rpc "does_not_exist" VNull)] 0%nat H) as (Hw & Hc & _).
  split; [exact Hw | exact Hc].
Defined.

(** Two [GET] requests to a configured process. *)
Lemma get_routes_are_silent_witness :
  let env := Demo.env_with (Some "sk_test_123") in
  let g := initialize Demo.module_present env in
  snd (serve env g [GetHealth Demo.now; GetRoot] 0%nat) = 0%nat /\
  calls_served env g [GetHealth Demo.now; GetRoot] 0%nat = [] /\
  Forall (fun res => status res = 200)
         (fst (serve env g [GetHealth Demo.now; GetRoot] 0%nat)).
Proof.
  exact (get_routes_are_silent (Demo.env_with (Some "sk_test_123"))
           (initialize Demo.module_present (Demo.env_with (Some "sk_test_123")))
           [GetHealth Demo.now; GetRoot] 0%nat eq_refl).
Defined.

End MoreExamples.
